(** * ts-openapi: the schema builder facade of [src/openapi/helpers/types.ts]

    The file embeds the twenty factory functions of the [Types] table.
    Each factory chains configuration calls on a builder object of the
    validation library the module imports ([import Joi from "joi"]).  The
    factories are translated statement by statement; a call that throws is a
    [Throw] in a small error monad.  They are given twice: as functions from
    the content of the configuration record to the result, and over a store
    of objects ([Heap]), where the record and the nodes are cells behind
    references, to state what a call leaves as it is. *)

From Stdlib Require Import ZArith QArith String List Bool Lia.
Import ListNotations.
Open Scope string_scope.
Open Scope list_scope.
Set Warnings "-register-all".

(** * JavaScript values *)

(** A [number] as the factories see it: they test it for truthiness, for
    [typeof x === "number"], and hand it to the builder, which tests it for
    being a safe integer or for being [NaN].  Finite numbers are kept as
    rationals. *)
Inductive number : Type :=
| NaN
| Infinity (negative : bool)
| Finite (q : Q).

(** Plain data that can sit in [default], [example] and in the [values] of
    an enumeration ([values: any[]]). *)
Inductive value : Type :=
| Undefined
| Null
| Bool (b : bool)
| Num (n : number)
| Str (s : string)
| Arr (elements : list value)
| Obj (members : list (string * value)).

(** [if (n)] on a number: [0] and [NaN] are falsy. *)
Definition truthy_number (n : number) : bool :=
  match n with
  | NaN => false
  | Infinity _ => true
  | Finite q => negb (Qnum q =? 0)%Z
  end.

(** [if (s)] on a string: the empty string is falsy. *)
Definition truthy_string (s : string) : bool :=
  match s with
  | EmptyString => false
  | _ => true
  end.

(** [if (v)] on any value. *)
Definition truthy (v : value) : bool :=
  match v with
  | Undefined | Null => false
  | Bool b => b
  | Num n => truthy_number n
  | Str s => truthy_string s
  | Arr _ | Obj _ => true
  end.

(** Equality of numbers as a [Set] of values compares them. *)
Definition number_eqb (a b : number) : bool :=
  match a, b with
  | NaN, NaN => true
  | Infinity x, Infinity y => Bool.eqb x y
  | Finite x, Finite y => Qeq_bool x y
  | _, _ => false
  end.

Fixpoint lookup {A : Type} (k : string) (l : list (string * A)) : option A :=
  match l with
  | [] => None
  | (k', a) :: l' => if String.eqb k k' then Some a else lookup k l'
  end.

(** Deep equality of values, used by the builder when it collects allowed
    values. *)
Fixpoint value_eqb (a b : value) {struct a} : bool :=
  match a, b with
  | Undefined, Undefined => true
  | Null, Null => true
  | Bool x, Bool y => Bool.eqb x y
  | Num x, Num y => number_eqb x y
  | Str x, Str y => String.eqb x y
  | Arr xs, Arr ys =>
      (fix all2 (xs ys : list value) {struct xs} : bool :=
         match xs, ys with
         | [], [] => true
         | x :: xs', y :: ys' => value_eqb x y && all2 xs' ys'
         | _, _ => false
         end) xs ys
  | Obj xs, Obj ys =>
      Nat.eqb (length xs) (length ys) &&
      (fix all (ms : list (string * value)) {struct ms} : bool :=
         match ms with
         | [] => true
         | (k, x) :: ms' =>
             match lookup k ys with
             | Some y => value_eqb x y
             | None => false
             end && all ms'
         end) xs
  | _, _ => false
  end.

Definition is_array (v : value) : bool :=
  match v with Arr _ => true | _ => false end.

Definition is_undefined (v : value) : bool :=
  match v with Undefined => true | _ => false end.

(** * Calls that may throw *)

Inductive exn : Type :=
| TypeError        (* raised by the language: reading a property of undefined *)
| AssertError.     (* raised by the builder when it rejects an argument *)

Inductive result (A : Type) : Type :=
| OK (a : A)
| Throw (e : exn).
Arguments OK {A} a.
Arguments Throw {A} e.

Definition bind {A B : Type} (r : result A) (k : A -> result B) : result B :=
  match r with
  | OK a => k a
  | Throw e => Throw e
  end.

Notation "x <- e ;; k" := (bind e (fun x => k))
  (at level 61, e at next level, right associativity).

Definition is_ok {A : Type} (r : result A) : bool :=
  match r with OK _ => true | Throw _ => false end.

(** * Schema nodes *)

Inductive kind : Type :=
| KString | KBinary | KNumber | KBoolean | KObject | KArray.

Inductive presence : Type :=
| Optional
| Required.

(** The rules the factories add.  A rule is known to the builder by its
    name; all of these are stored once per name. *)
Inductive rule : Type :=
| Rmin (limit : number)
| Rmax (limit : number)
| Remail
| Rguid (version : string)
| Ruri
| Rhostname
| Rip (version : list string)
| RisoDate
| Rinteger
| Ritems.

Definition rule_name (r : rule) : string :=
  match r with
  | Rmin _ => "min"
  | Rmax _ => "max"
  | Remail => "email"
  | Rguid _ => "guid"
  | Ruri => "uri"
  | Rhostname => "hostname"
  | Rip _ => "ip"
  | RisoDate => "isoDate"
  | Rinteger => "integer"
  | Ritems => "items"
  end.

Record flags : Type := Flags {
  flag_presence : option presence;
  flag_description : option string;
  flag_default : option value;
  flag_only : bool;
  flag_encoding : option string
}.

(** Modelled from the spec: the Schema Node of the validation library.  The
    library ([joi], 17.3.0 in package.json) is imported by types.ts and is
    not among the sources; the node records what section 3 of the
    specification lists: base kind, constraints (rules, allowed values,
    encoding, strictness), metadata tags, default, example, nullability
    (null among the allowed values) and requiredness (the presence flag).
    The fields carry the names the library gives them. *)
Inductive schema : Type := Schema {
  type : kind;
  _flags : flags;
  prefs_convert : option bool;
  _valids : list value;
  _rules : list rule;
  terms_examples : list value;
  terms_metas : list value;
  terms_keys : option (list (string * schema));
  terms_items : list schema
}.

Definition no_flags : flags :=
  {| flag_presence := None; flag_description := None; flag_default := None;
     flag_only := false; flag_encoding := None |}.

Definition base (k : kind) : schema :=
  {| type := k; _flags := no_flags; prefs_convert := None; _valids := [];
     _rules := []; terms_examples := []; terms_metas := [];
     terms_keys := None; terms_items := [] |}.

Definition with_flags (f : flags) (s : schema) : schema :=
  {| type := type s; _flags := f; prefs_convert := prefs_convert s;
     _valids := _valids s; _rules := _rules s;
     terms_examples := terms_examples s; terms_metas := terms_metas s;
     terms_keys := terms_keys s; terms_items := terms_items s |}.

Definition with_convert (c : option bool) (s : schema) : schema :=
  {| type := type s; _flags := _flags s; prefs_convert := c;
     _valids := _valids s; _rules := _rules s;
     terms_examples := terms_examples s; terms_metas := terms_metas s;
     terms_keys := terms_keys s; terms_items := terms_items s |}.

Definition with_valids (vs : list value) (s : schema) : schema :=
  {| type := type s; _flags := _flags s; prefs_convert := prefs_convert s;
     _valids := vs; _rules := _rules s;
     terms_examples := terms_examples s; terms_metas := terms_metas s;
     terms_keys := terms_keys s; terms_items := terms_items s |}.

Definition with_rules (rs : list rule) (s : schema) : schema :=
  {| type := type s; _flags := _flags s; prefs_convert := prefs_convert s;
     _valids := _valids s; _rules := rs;
     terms_examples := terms_examples s; terms_metas := terms_metas s;
     terms_keys := terms_keys s; terms_items := terms_items s |}.

Definition with_examples (es : list value) (s : schema) : schema :=
  {| type := type s; _flags := _flags s; prefs_convert := prefs_convert s;
     _valids := _valids s; _rules := _rules s;
     terms_examples := es; terms_metas := terms_metas s;
     terms_keys := terms_keys s; terms_items := terms_items s |}.

Definition with_metas (ms : list value) (s : schema) : schema :=
  {| type := type s; _flags := _flags s; prefs_convert := prefs_convert s;
     _valids := _valids s; _rules := _rules s;
     terms_examples := terms_examples s; terms_metas := ms;
     terms_keys := terms_keys s; terms_items := terms_items s |}.

Definition with_keys (ks : option (list (string * schema))) (s : schema) : schema :=
  {| type := type s; _flags := _flags s; prefs_convert := prefs_convert s;
     _valids := _valids s; _rules := _rules s;
     terms_examples := terms_examples s; terms_metas := terms_metas s;
     terms_keys := ks; terms_items := terms_items s |}.

Definition with_items (ss : list schema) (s : schema) : schema :=
  {| type := type s; _flags := _flags s; prefs_convert := prefs_convert s;
     _valids := _valids s; _rules := _rules s;
     terms_examples := terms_examples s; terms_metas := terms_metas s;
     terms_keys := terms_keys s; terms_items := ss |}.

Definition put_presence (m : presence) (f : flags) : flags :=
  {| flag_presence := Some m; flag_description := flag_description f;
     flag_default := flag_default f; flag_only := flag_only f;
     flag_encoding := flag_encoding f |}.

Definition put_description (d : string) (f : flags) : flags :=
  {| flag_presence := flag_presence f; flag_description := Some d;
     flag_default := flag_default f; flag_only := flag_only f;
     flag_encoding := flag_encoding f |}.

Definition put_default (v : value) (f : flags) : flags :=
  {| flag_presence := flag_presence f; flag_description := flag_description f;
     flag_default := Some v; flag_only := flag_only f;
     flag_encoding := flag_encoding f |}.

Definition put_only (b : bool) (f : flags) : flags :=
  {| flag_presence := flag_presence f; flag_description := flag_description f;
     flag_default := flag_default f; flag_only := b;
     flag_encoding := flag_encoding f |}.

Definition put_encoding (e : string) (f : flags) : flags :=
  {| flag_presence := flag_presence f; flag_description := flag_description f;
     flag_default := flag_default f; flag_only := flag_only f;
     flag_encoding := Some e |}.

(** * The builder interface the factories call *)

(** The validation library is not part of the repository.  Section 6 of
    the specification lists what the factories consume from it: a base
    constructor per primitive kind and chainable methods for description,
    requiredness, null-acceptance, default, example, bounds, allowed
    values, formats, encoding and metadata.  The module below gives each of
    these as a function on nodes.  A method returns a new node and leaves
    the one it is called on alone.  Where the specification is silent, on
    which arguments a method rejects and on what a repeated call does, the
    functions follow the library as released (joi 17.3.0, the version
    package.json pins). *)
Module Joi.

(** Modelled from the spec: the argument checks of the absent library
    ([Number.isSafeInteger(value) && value >= 0] for a length,
    [typeof value === 'number' && !isNaN(value)] for a numeric bound, no
    array among the arguments of [allow] and [valid]). *)
Definition isSafeInteger (n : number) : bool :=
  match n with
  | Finite q =>
      let r := Qred q in
      (Qden r =? 1)%positive && (Z.abs (Qnum r) <=? 2 ^ 53 - 1)%Z
  | _ => false
  end.

Definition limit (n : number) : bool :=
  isSafeInteger n &&
  match n with Finite q => (0 <=? Qnum q)%Z | _ => false end.

Definition isNumber (n : number) : bool :=
  match n with NaN => false | _ => true end.

Definition verifyFlat (args : list value) : bool :=
  negb (existsb is_array args).

(** Modelled from the spec: setting a flag and adding a rule on a node of
    the absent library.  A rule replaces an earlier rule of the same name;
    the [items] rule goes to the front. *)
Definition setFlag (upd : flags -> flags) (s : schema) : schema :=
  with_flags (upd (_flags s)) s.

Definition ruleRemove (name : string) (s : schema) : schema :=
  with_rules (filter (fun r => negb (String.eqb (rule_name r) name)) (_rules s)) s.

Definition priority (r : rule) : bool :=
  match r with Ritems => true | _ => false end.

Definition addRule (r : rule) (s : schema) : schema :=
  let obj := ruleRemove (rule_name r) s in
  with_rules (if priority r then r :: _rules obj else _rules obj ++ [r]) obj.

(** Modelled from the spec: a method that exists on one base kind only;
    calling it on another kind is a call of [undefined]. *)
Definition method_of (k : kind) (s : schema) (r : result schema) : result schema :=
  match type s, k with
  | KString, KString | KBinary, KBinary | KNumber, KNumber
  | KBoolean, KBoolean | KObject, KObject | KArray, KArray => r
  | _, _ => Throw TypeError
  end.

(** Modelled from the spec: [description(desc)], descriptive text; an empty
    text is rejected. *)
Definition description (desc : string) (s : schema) : result schema :=
  if truthy_string desc then OK (setFlag (put_description desc) s)
  else Throw AssertError.

(** Modelled from the spec: [required()] and [optional()], the two explicit
    requiredness marks. *)
Definition required (s : schema) : result schema :=
  OK (setFlag (put_presence Required) s).

Definition optional (s : schema) : result schema :=
  OK (setFlag (put_presence Optional) s).

(** Modelled from the spec: the set of allowed values keeps one copy of
    each value, in the order of arrival. *)
Definition values_add (v : value) (vs : list value) : list value :=
  if existsb (fun item => value_eqb item v) vs then vs else vs ++ [v].

Fixpoint addValues (values : list value) (s : schema) : result schema :=
  match values with
  | [] => OK s
  | v :: rest =>
      if is_undefined v then Throw AssertError
      else addValues rest (with_valids (values_add v (_valids s)) s)
  end.

(** Modelled from the spec: [allow(...values)], additionally accepted
    values ([allow(null)] is null-acceptance). *)
Definition allow (values : list value) (s : schema) : result schema :=
  if verifyFlat values then addValues values s else Throw AssertError.

(** Modelled from the spec: [valid(...values)], restriction to the allowed
    values: they are added, and the node accepts nothing else once there is
    an allowed value. *)
Definition valid (values : list value) (s : schema) : result schema :=
  if verifyFlat values then
    obj <- allow values s ;;
    OK (setFlag (put_only (match _valids obj with [] => false | _ => true end)) obj)
  else Throw AssertError.

(** Modelled from the spec: [min(limit)] and [max(limit)], the lower and
    upper bound: a length on text, bytes and arrays, a number of keys on
    objects, a value on numbers; a boolean node has neither method. *)
Definition bound_ok (k : kind) (lim : number) : option bool :=
  match k with
  | KString | KBinary | KArray | KObject => Some (limit lim)
  | KNumber => Some (isNumber lim)
  | KBoolean => None
  end.

Definition min (lim : number) (s : schema) : result schema :=
  match bound_ok (type s) lim with
  | Some true => OK (addRule (Rmin lim) s)
  | Some false => Throw AssertError
  | None => Throw TypeError
  end.

Definition max (lim : number) (s : schema) : result schema :=
  match bound_ok (type s) lim with
  | Some true => OK (addRule (Rmax lim) s)
  | Some false => Throw AssertError
  | None => Throw TypeError
  end.

(** Modelled from the spec: [default(value)], [example(value)] and
    [meta(value)]; each rejects [undefined].  Examples and metadata tags
    accumulate. *)
Definition default (v : value) (s : schema) : result schema :=
  if is_undefined v then Throw AssertError
  else OK (setFlag (put_default v) s).

Definition example (v : value) (s : schema) : result schema :=
  if is_undefined v then Throw AssertError
  else OK (with_examples (terms_examples s ++ [v]) s).

Definition meta (v : value) (s : schema) : result schema :=
  if is_undefined v then Throw AssertError
  else OK (with_metas (terms_metas s ++ [v]) s).

(** Modelled from the spec: the format validators of text nodes. *)
Definition email (s : schema) : result schema :=
  method_of KString s (OK (addRule Remail s)).

Definition uri (s : schema) : result schema :=
  method_of KString s (OK (addRule Ruri s)).

Definition hostname (s : schema) : result schema :=
  method_of KString s (OK (addRule Rhostname s)).

Definition isoDate (s : schema) : result schema :=
  method_of KString s (OK (addRule RisoDate s)).

Definition guidVersions : list string :=
  ["uuidv1"; "uuidv2"; "uuidv3"; "uuidv4"; "uuidv5"].

Definition uuid (version : string) (s : schema) : result schema :=
  method_of KString s
    (if existsb (String.eqb version) guidVersions
     then OK (addRule (Rguid version) s)
     else Throw AssertError).

Definition ipVersions : list string := ["ipv4"; "ipv6"; "ipvfuture"].

Definition ip (version : list string) (s : schema) : result schema :=
  method_of KString s
    (match version with
     | [] => Throw AssertError
     | _ =>
         if forallb (fun v => existsb (String.eqb v) ipVersions) version
         then OK (addRule (Rip version) s)
         else Throw AssertError
     end).

(** Modelled from the spec: [encoding(name)] of byte nodes. *)
Definition encodings : list string :=
  ["utf8"; "utf-8"; "hex"; "base64"; "ascii"; "latin1"; "binary";
   "ucs2"; "ucs-2"; "utf16le"; "utf-16le"].

Definition encoding (name : string) (s : schema) : result schema :=
  method_of KBinary s
    (if existsb (String.eqb name) encodings
     then OK (setFlag (put_encoding name) s)
     else Throw AssertError).

(** Modelled from the spec: [integer()] of numeric nodes. *)
Definition integer (s : schema) : result schema :=
  method_of KNumber s (OK (addRule Rinteger s)).

(** Modelled from the spec: [strict()], no type coercion. *)
Definition strict (s : schema) : result schema :=
  OK (with_convert (Some false) s).

(** Modelled from the spec: [keys(map)] of object nodes, the property map.
    As the library documents it: without a map ([undefined]) the node
    accepts any key, with an empty map none, otherwise the named keys (a
    name given again replaces the earlier entry). *)
Definition keys (map : option (list (string * schema))) (s : schema) : result schema :=
  method_of KObject s
    (match map with
     | None => OK (with_keys None s)
     | Some [] => OK (with_keys (Some []) s)
     | Some kvs =>
         let kept :=
           match terms_keys s with
           | Some ks =>
               filter (fun child =>
                         match lookup (fst child) kvs with
                         | Some _ => false
                         | None => true
                         end) ks
           | None => []
           end in
         OK (with_keys (Some (kept ++ kvs)) s)
     end).

(** Modelled from the spec: [items(...types)] of array nodes, the element
    types; [undefined] is not an element type and is rejected. *)
Fixpoint compileItems (types : list (option schema)) : result (list schema) :=
  match types with
  | [] => OK []
  | None :: _ => Throw AssertError
  | Some t :: rest => ts <- compileItems rest ;; OK (t :: ts)
  end.

Definition items (types : list (option schema)) (s : schema) : result schema :=
  method_of KArray s
    (let obj := addRule Ritems s in
     ts <- compileItems types ;;
     OK (with_items (terms_items obj ++ ts) obj)).

(** Modelled from the spec: the base constructors, one per primitive kind. *)
Definition string : schema := base KString.
Definition binary : schema := base KBinary.
Definition number : schema := base KNumber.
Definition boolean : schema := base KBoolean.
Definition object : schema := base KObject.
Definition array : schema := base KArray.

End Joi.

(** * Configuration records *)

(** One record for all the parameter types of types.ts ([Common],
    [StringParameters], [IntegerParameters], [ObjectParameters], ...): a
    factory hands the object it was given on to the factory it is built on,
    which reads its own fields from it.  [None] is an absent field. *)
Record params : Type := Params {
  description : option string;
  required : option bool;
  nullable : option bool;
  default : option value;
  example : option value;
  minLength : option number;
  maxLength : option number;
  minValue : option number;
  maxValue : option number;
  values : option (list value);
  properties : option (list (string * schema));
  arrayType : option schema
}.

Definition no_params : params :=
  {| description := None; required := None; nullable := None;
     default := None; example := None; minLength := None; maxLength := None;
     minValue := None; maxValue := None; values := None; properties := None;
     arrayType := None |}.

(** The conditions of the [if] statements, each giving the argument of the
    guarded call when the condition holds. *)

(* if (description) *)
Definition if_string (d : option string) : option string :=
  match d with
  | Some s => if truthy_string s then Some s else None
  | None => None
  end.

(* typeof nullable === "boolean" && nullable;  if (nullable) *)
Definition if_true (b : option bool) : option unit :=
  match b with
  | Some true => Some tt
  | _ => None
  end.

(* if (minLength) *)
Definition if_number (n : option number) : option number :=
  match n with
  | Some x => if truthy_number x then Some x else None
  | None => None
  end.

(* if (parameters.default) *)
Definition if_value (v : option value) : option value :=
  match v with
  | Some x => if truthy x then Some x else None
  | None => None
  end.

(* typeof parameters.default === "number" *)
Definition typeof_number (v : option value) : option value :=
  match v with
  | Some (Num n) => Some (Num n)
  | _ => None
  end.

(* typeof parameters.default === "boolean" *)
Definition typeof_boolean (v : option value) : option value :=
  match v with
  | Some (Bool b) => Some (Bool b)
  | _ => None
  end.

(* if (c) { joiType = joiType.m(x); } *)
Definition when_ {A : Type} (c : option A) (m : A -> schema -> result schema)
    (joiType : schema) : result schema :=
  match c with
  | Some x => m x joiType
  | None => OK joiType
  end.

(* joiType = required ? joiType.required() : joiType.optional(); *)
Definition required_or_optional (required : bool) (joiType : schema) : result schema :=
  if required then Joi.required joiType else Joi.optional joiType.

(* reading a property of [parameters]: a TypeError when it is undefined *)
Definition member (parameters : option params) : result params :=
  match parameters with
  | Some p => OK p
  | None => Throw TypeError
  end.

(* valid(...parameters.values): the repository is compiled for ES5
   (TypeScript 3.7.5, no newer target), where the call is emitted as
   valid.apply(_a, parameters.values), and apply takes an absent list of
   arguments as no argument at all *)
Definition spread (vs : option (list value)) : result (list value) :=
  match vs with
  | Some l => OK l
  | None => OK []
  end.

Definition format (name : string) : value := Obj [("format", Str name)].

(** * The factories *)

Module Shape.
Inductive t : Type :=
| String | StringEnum | Email | Password | Uuid | Uri | Hostname | Ipv4 | Ipv6
| Binary | Byte | DateTime | Date | Number | NumberEnum | Integer
| IntegerEnum | Boolean | Object | Array.
End Shape.

Module Types.

Definition String (parameters : option params) : result schema :=
  let joiType := Joi.string in
  match parameters with
  | Some p =>
      joiType <- when_ (if_string (description p)) Joi.description joiType ;;
      joiType <- when_ (required p) required_or_optional joiType ;;
      joiType <- when_ (if_true (nullable p)) (fun _ => Joi.allow [Null]) joiType ;;
      joiType <- when_ (if_number (minLength p)) Joi.min joiType ;;
      joiType <- when_ (if_number (maxLength p)) Joi.max joiType ;;
      joiType <- when_ (if_value (default p)) Joi.default joiType ;;
      joiType <- when_ (if_value (example p)) Joi.example joiType ;;
      OK joiType
  | None => OK joiType
  end.

Definition StringEnum (parameters : option params) : result schema :=
  joiType <- String parameters ;;
  p <- member parameters ;;
  vs <- spread (values p) ;;
  Joi.valid vs joiType.

Definition Email (parameters : option params) : result schema :=
  joiType <- String parameters ;;
  Joi.email joiType.

Definition Password (parameters : option params) : result schema :=
  joiType <- String parameters ;;
  Joi.meta (format "password") joiType.

Definition Uuid (parameters : option params) : result schema :=
  joiType <- String parameters ;;
  joiType <- Joi.uuid "uuidv4" joiType ;;
  joiType <- Joi.meta (format "uuid") joiType ;;
  joiType <- Joi.min (Finite 36) joiType ;;
  Joi.max (Finite 36) joiType.

Definition Uri (parameters : option params) : result schema :=
  joiType <- String parameters ;;
  joiType <- Joi.uri joiType ;;
  Joi.meta (format "uri") joiType.

Definition Hostname (parameters : option params) : result schema :=
  joiType <- String parameters ;;
  joiType <- Joi.hostname joiType ;;
  Joi.meta (format "hostname") joiType.

Definition Ipv4 (parameters : option params) : result schema :=
  joiType <- String parameters ;;
  joiType <- Joi.ip ["ipv4"] joiType ;;
  joiType <- Joi.meta (format "ipv4") joiType ;;
  joiType <- Joi.min (Finite 7) joiType ;;
  Joi.max (Finite 15) joiType.

Definition Ipv6 (parameters : option params) : result schema :=
  joiType <- String parameters ;;
  joiType <- Joi.ip ["ipv6"] joiType ;;
  joiType <- Joi.meta (format "ipv6") joiType ;;
  joiType <- Joi.min (Finite 3) joiType ;;
  Joi.max (Finite 45) joiType.

Definition Binary (parameters : option params) : result schema :=
  let joiType := Joi.binary in
  match parameters with
  | Some p =>
      joiType <- when_ (if_string (description p)) Joi.description joiType ;;
      joiType <- when_ (required p) required_or_optional joiType ;;
      joiType <- when_ (if_true (nullable p)) (fun _ => Joi.allow [Null]) joiType ;;
      joiType <- when_ (if_number (minLength p)) Joi.min joiType ;;
      joiType <- when_ (if_number (maxLength p)) Joi.max joiType ;;
      joiType <- when_ (if_value (default p)) Joi.default joiType ;;
      joiType <- when_ (if_value (example p)) Joi.example joiType ;;
      OK joiType
  | None => OK joiType
  end.

Definition Byte (parameters : option params) : result schema :=
  joiType <- Binary parameters ;;
  Joi.encoding "base64" joiType.

Definition DateTime (parameters : option params) : result schema :=
  joiType <- Joi.isoDate Joi.string ;;
  joiType <- Joi.max (Finite 24) joiType ;;
  match parameters with
  | Some p =>
      joiType <- when_ (if_string (description p)) Joi.description joiType ;;
      joiType <- when_ (required p) required_or_optional joiType ;;
      joiType <- when_ (if_true (nullable p)) (fun _ => Joi.allow [Null]) joiType ;;
      OK joiType
  | None => OK joiType
  end.

Definition Date (parameters : option params) : result schema :=
  joiType <- DateTime parameters ;;
  joiType <- Joi.meta (format "date") joiType ;;
  joiType <- Joi.min (Finite 10) joiType ;;
  Joi.max (Finite 10) joiType.

Definition Number (parameters : option params) : result schema :=
  let joiType := Joi.number in
  match parameters with
  | Some p =>
      joiType <- when_ (if_string (description p)) Joi.description joiType ;;
      joiType <- when_ (if_true (required p)) (fun _ => Joi.required) joiType ;;
      joiType <- when_ (if_true (nullable p)) (fun _ => Joi.allow [Null]) joiType ;;
      joiType <- when_ (minValue p) Joi.min joiType ;;
      joiType <- when_ (maxValue p) Joi.max joiType ;;
      joiType <- when_ (typeof_number (default p)) Joi.default joiType ;;
      joiType <- when_ (typeof_number (example p)) Joi.example joiType ;;
      OK joiType
  | None => OK joiType
  end.

Definition NumberEnum (parameters : option params) : result schema :=
  joiType <- Number parameters ;;
  p <- member parameters ;;
  vs <- spread (values p) ;;
  Joi.valid vs joiType.

Definition Integer (parameters : option params) : result schema :=
  joiType <- Number parameters ;;
  Joi.integer joiType.

Definition IntegerEnum (parameters : option params) : result schema :=
  joiType <- Integer parameters ;;
  p <- member parameters ;;
  vs <- spread (values p) ;;
  Joi.valid vs joiType.

Definition Boolean (parameters : option params) : result schema :=
  joiType <- Joi.strict Joi.boolean ;;
  match parameters with
  | Some p =>
      joiType <- when_ (if_string (description p)) Joi.description joiType ;;
      joiType <- when_ (required p) required_or_optional joiType ;;
      joiType <- when_ (if_true (nullable p)) (fun _ => Joi.allow [Null]) joiType ;;
      joiType <- when_ (typeof_boolean (default p)) Joi.default joiType ;;
      joiType <- when_ (typeof_boolean (example p)) Joi.example joiType ;;
      OK joiType
  | None => OK joiType
  end.

Definition Object (parameters : option params) : result schema :=
  p <- member parameters ;;
  joiType <- Joi.keys (properties p) Joi.object ;;
  joiType <- when_ (if_string (description p)) Joi.description joiType ;;
  joiType <- when_ (required p) required_or_optional joiType ;;
  joiType <- when_ (if_true (nullable p)) (fun _ => Joi.allow [Null]) joiType ;;
  joiType <- when_ (if_value (default p)) Joi.default joiType ;;
  joiType <- when_ (if_value (example p)) Joi.example joiType ;;
  OK joiType.

Definition Array (parameters : option params) : result schema :=
  p <- member parameters ;;
  joiType <- Joi.items [arrayType p] Joi.array ;;
  joiType <- when_ (if_string (description p)) Joi.description joiType ;;
  joiType <- when_ (required p) required_or_optional joiType ;;
  joiType <- when_ (if_true (nullable p)) (fun _ => Joi.allow [Null]) joiType ;;
  joiType <- when_ (if_value (default p)) Joi.default joiType ;;
  joiType <- when_ (if_value (example p)) Joi.example joiType ;;
  joiType <- when_ (if_number (minLength p)) Joi.min joiType ;;
  joiType <- when_ (if_number (maxLength p)) Joi.max joiType ;;
  OK joiType.

(** The table itself: [Types[shape]]. *)
Definition factory (shape : Shape.t) : option params -> result schema :=
  match shape with
  | Shape.String => String
  | Shape.StringEnum => StringEnum
  | Shape.Email => Email
  | Shape.Password => Password
  | Shape.Uuid => Uuid
  | Shape.Uri => Uri
  | Shape.Hostname => Hostname
  | Shape.Ipv4 => Ipv4
  | Shape.Ipv6 => Ipv6
  | Shape.Binary => Binary
  | Shape.Byte => Byte
  | Shape.DateTime => DateTime
  | Shape.Date => Date
  | Shape.Number => Number
  | Shape.NumberEnum => NumberEnum
  | Shape.Integer => Integer
  | Shape.IntegerEnum => IntegerEnum
  | Shape.Boolean => Boolean
  | Shape.Object => Object
  | Shape.Array => Array
  end.

End Types.

(** * What a factory returns, in closed form *)

Definition presence_of (required : bool) : presence :=
  if required then Required else Optional.

Definition opt_list {A : Type} (o : option A) : list A :=
  match o with
  | Some a => [a]
  | None => []
  end.

Definition null_valids (nullable : option bool) : list value :=
  match if_true nullable with
  | Some _ => [Null]
  | None => []
  end.

(** The node of [Types.String] and of [Types.Binary]. *)
Definition text_node (k : kind) (p : params) : schema :=
  {| type := k;
     _flags := {| flag_presence := option_map presence_of (required p);
                  flag_description := if_string (description p);
                  flag_default := if_value (default p);
                  flag_only := false;
                  flag_encoding := None |};
     prefs_convert := None;
     _valids := null_valids (nullable p);
     _rules := map Rmin (opt_list (if_number (minLength p)))
               ++ map Rmax (opt_list (if_number (maxLength p)));
     terms_examples := opt_list (if_value (example p));
     terms_metas := [];
     terms_keys := None;
     terms_items := [] |}.

(** The length bounds a text, byte or array factory passes on are accepted
    by the builder. *)
Definition length_ok (n : option number) : bool :=
  match if_number n with
  | Some x => Joi.limit x
  | None => true
  end.

Definition lengths_ok (p : params) : bool :=
  length_ok (minLength p) && length_ok (maxLength p).

Arguments Joi.limit : simpl never.
Arguments truthy_number : simpl never.

(** The node of [Types.DateTime]. *)
Definition date_node (p : params) : schema :=
  {| type := KString;
     _flags := {| flag_presence := option_map presence_of (required p);
                  flag_description := if_string (description p);
                  flag_default := None;
                  flag_only := false;
                  flag_encoding := None |};
     prefs_convert := None;
     _valids := null_valids (nullable p);
     _rules := [RisoDate; Rmax (Finite 24)];
     terms_examples := [];
     terms_metas := [];
     terms_keys := None;
     terms_items := [] |}.

(** The kinds whose [min] and [max] bound a length or a count. *)
Definition has_length (k : kind) : bool :=
  match k with
  | KString | KBinary | KArray | KObject => true
  | _ => false
  end.

(** The numeric bounds a numeric factory passes on are accepted by the
    builder. *)
Definition number_ok (n : option number) : bool :=
  match n with
  | Some x => Joi.isNumber x
  | None => true
  end.

Definition numbers_ok (p : params) : bool :=
  number_ok (minValue p) && number_ok (maxValue p).

(** The node of [Types.Number]. *)
Definition number_node (p : params) : schema :=
  {| type := KNumber;
     _flags := {| flag_presence := option_map (fun _ => Required) (if_true (required p));
                  flag_description := if_string (description p);
                  flag_default := typeof_number (default p);
                  flag_only := false;
                  flag_encoding := None |};
     prefs_convert := None;
     _valids := null_valids (nullable p);
     _rules := map Rmin (opt_list (minValue p)) ++ map Rmax (opt_list (maxValue p));
     terms_examples := opt_list (typeof_number (example p));
     terms_metas := [];
     terms_keys := None;
     terms_items := [] |}.

(** The node of [Types.Boolean]. *)
Definition boolean_node (p : params) : schema :=
  {| type := KBoolean;
     _flags := {| flag_presence := option_map presence_of (required p);
                  flag_description := if_string (description p);
                  flag_default := typeof_boolean (default p);
                  flag_only := false;
                  flag_encoding := None |};
     prefs_convert := Some false;
     _valids := null_valids (nullable p);
     _rules := [];
     terms_examples := opt_list (typeof_boolean (example p));
     terms_metas := [];
     terms_keys := None;
     terms_items := [] |}.

(** The node of [Types.Object]. *)
Definition object_node (p : params) : schema :=
  {| type := KObject;
     _flags := {| flag_presence := option_map presence_of (required p);
                  flag_description := if_string (description p);
                  flag_default := if_value (default p);
                  flag_only := false;
                  flag_encoding := None |};
     prefs_convert := None;
     _valids := null_valids (nullable p);
     _rules := [];
     terms_examples := opt_list (if_value (example p));
     terms_metas := [];
     terms_keys := properties p;
     terms_items := [] |}.

(** The node of [Types.Array], for the element type [t]. *)
Definition array_node (t : schema) (p : params) : schema :=
  {| type := KArray;
     _flags := {| flag_presence := option_map presence_of (required p);
                  flag_description := if_string (description p);
                  flag_default := if_value (default p);
                  flag_only := false;
                  flag_encoding := None |};
     prefs_convert := None;
     _valids := null_valids (nullable p);
     _rules := Ritems :: map Rmin (opt_list (if_number (minLength p)))
               ++ map Rmax (opt_list (if_number (maxLength p)));
     terms_examples := opt_list (if_value (example p));
     terms_metas := [];
     terms_keys := None;
     terms_items := [t] |}.

(** Enumerations: the allowed values after [valid(...values)]. *)
Definition collect (vs init : list value) : list value :=
  fold_left (fun acc v => Joi.values_add v acc) vs init.

Definition enum_node (vs : list value) (s : schema) : schema :=
  let all := collect vs (_valids s) in
  Joi.setFlag (put_only (match all with [] => false | _ => true end))
    (with_valids all s).

Definition values_ok (vs : list value) : bool :=
  Joi.verifyFlat vs && negb (existsb is_undefined vs).

Definition given (vs : option (list value)) : list value :=
  match vs with
  | Some l => l
  | None => []
  end.

Definition enum_closed (vs : option (list value)) (s : schema) : result schema :=
  if values_ok (given vs) then OK (enum_node (given vs) s) else Throw AssertError.

Definition tagged (name : string) (s : schema) : schema :=
  with_metas [format name] s.

Definition guard (b : bool) (s : schema) : result schema :=
  if b then OK s else Throw AssertError.

(** What each factory returns for a configuration record, written out. *)
Definition closed (shape : Shape.t) (p : params) : result schema :=
  match shape with
  | Shape.String => guard (lengths_ok p) (text_node KString p)
  | Shape.StringEnum =>
      if lengths_ok p then enum_closed (values p) (text_node KString p)
      else Throw AssertError
  | Shape.Email =>
      guard (lengths_ok p)
        (with_rules (_rules (text_node KString p) ++ [Remail]) (text_node KString p))
  | Shape.Password =>
      guard (lengths_ok p) (tagged "password" (text_node KString p))
  | Shape.Uuid =>
      guard (lengths_ok p)
        (tagged "uuid"
           (with_rules [Rguid "uuidv4"; Rmin (Finite 36); Rmax (Finite 36)]
              (text_node KString p)))
  | Shape.Uri =>
      guard (lengths_ok p)
        (tagged "uri"
           (with_rules (_rules (text_node KString p) ++ [Ruri]) (text_node KString p)))
  | Shape.Hostname =>
      guard (lengths_ok p)
        (tagged "hostname"
           (with_rules (_rules (text_node KString p) ++ [Rhostname])
              (text_node KString p)))
  | Shape.Ipv4 =>
      guard (lengths_ok p)
        (tagged "ipv4"
           (with_rules [Rip ["ipv4"]; Rmin (Finite 7); Rmax (Finite 15)]
              (text_node KString p)))
  | Shape.Ipv6 =>
      guard (lengths_ok p)
        (tagged "ipv6"
           (with_rules [Rip ["ipv6"]; Rmin (Finite 3); Rmax (Finite 45)]
              (text_node KString p)))
  | Shape.Binary => guard (lengths_ok p) (text_node KBinary p)
  | Shape.Byte =>
      guard (lengths_ok p)
        (Joi.setFlag (put_encoding "base64") (text_node KBinary p))
  | Shape.DateTime => OK (date_node p)
  | Shape.Date =>
      OK (tagged "date"
            (with_rules [RisoDate; Rmin (Finite 10); Rmax (Finite 10)] (date_node p)))
  | Shape.Number => guard (numbers_ok p) (number_node p)
  | Shape.NumberEnum =>
      if numbers_ok p then enum_closed (values p) (number_node p)
      else Throw AssertError
  | Shape.Integer =>
      guard (numbers_ok p)
        (with_rules (_rules (number_node p) ++ [Rinteger]) (number_node p))
  | Shape.IntegerEnum =>
      if numbers_ok p
      then enum_closed (values p)
             (with_rules (_rules (number_node p) ++ [Rinteger]) (number_node p))
      else Throw AssertError
  | Shape.Boolean => OK (boolean_node p)
  | Shape.Object => OK (object_node p)
  | Shape.Array =>
      match arrayType p with
      | Some t => guard (lengths_ok p) (array_node t p)
      | None => Throw AssertError
      end
  end.

(** The factories whose configuration record is not optional. *)
Definition mandatory (shape : Shape.t) : bool :=
  match shape with
  | Shape.StringEnum | Shape.NumberEnum | Shape.IntegerEnum
  | Shape.Object | Shape.Array => true
  | _ => false
  end.

(** * Reading a node *)

Definition requiredness (s : schema) : option presence :=
  flag_presence (_flags s).

Definition min_limits (s : schema) : list number :=
  flat_map (fun r => match r with Rmin l => [l] | _ => [] end) (_rules s).

Definition max_limits (s : schema) : list number :=
  flat_map (fun r => match r with Rmax l => [l] | _ => [] end) (_rules s).

Definition number_leb (a b : number) : bool :=
  match a, b with
  | NaN, _ | _, NaN => false
  | Infinity true, _ => true
  | _, Infinity false => true
  | Finite x, Finite y => Qle_bool x y
  | _, _ => false
  end.

Definition of_length (n : nat) : number := Finite (inject_Z (Z.of_nat n)).

(** The lengths the bounds of a node leave room for: every lower bound is
    at most the length, every upper bound at least.  This reads the bounds
    and nothing else of the node; what a node accepts is [validate],
    further down. *)
Definition admits_length (s : schema) (n : nat) : bool :=
  forallb (fun lo => number_leb lo (of_length n)) (min_limits s) &&
  forallb (fun hi => number_leb (of_length n) hi) (max_limits s).

(** * Changing one field of a configuration record *)

Definition set_description (d : option string) (p : params) : params :=
  {| description := d; required := required p; nullable := nullable p;
     default := default p; example := example p; minLength := minLength p;
     maxLength := maxLength p; minValue := minValue p; maxValue := maxValue p;
     values := values p; properties := properties p; arrayType := arrayType p |}.

Definition set_required (r : option bool) (p : params) : params :=
  {| description := description p; required := r; nullable := nullable p;
     default := default p; example := example p; minLength := minLength p;
     maxLength := maxLength p; minValue := minValue p; maxValue := maxValue p;
     values := values p; properties := properties p; arrayType := arrayType p |}.

Definition set_default (v : option value) (p : params) : params :=
  {| description := description p; required := required p; nullable := nullable p;
     default := v; example := example p; minLength := minLength p;
     maxLength := maxLength p; minValue := minValue p; maxValue := maxValue p;
     values := values p; properties := properties p; arrayType := arrayType p |}.

Definition set_example (v : option value) (p : params) : params :=
  {| description := description p; required := required p; nullable := nullable p;
     default := default p; example := v; minLength := minLength p;
     maxLength := maxLength p; minValue := minValue p; maxValue := maxValue p;
     values := values p; properties := properties p; arrayType := arrayType p |}.

Definition set_minLength (n : option number) (p : params) : params :=
  {| description := description p; required := required p; nullable := nullable p;
     default := default p; example := example p; minLength := n;
     maxLength := maxLength p; minValue := minValue p; maxValue := maxValue p;
     values := values p; properties := properties p; arrayType := arrayType p |}.

Definition set_maxLength (n : option number) (p : params) : params :=
  {| description := description p; required := required p; nullable := nullable p;
     default := default p; example := example p; minLength := minLength p;
     maxLength := n; minValue := minValue p; maxValue := maxValue p;
     values := values p; properties := properties p; arrayType := arrayType p |}.

(** The shapes built on [Types.Number]. *)
Definition numeric (shape : Shape.t) : bool :=
  match shape with
  | Shape.Number | Shape.NumberEnum | Shape.Integer | Shape.IntegerEnum => true
  | _ => false
  end.

(** * Configurations used in the statements *)

(** A configuration is passed on unchanged when the builder accepts the
    lengths in it; no configuration at all has no lengths. *)
Definition accepted (parameters : option params) : bool :=
  match parameters with
  | Some p => lengths_ok p
  | None => true
  end.

(** The record with only the fields every parameter type shares. *)
Definition common_only (p : params) : params :=
  {| description := description p; required := required p; nullable := nullable p;
     default := None; example := None; minLength := None; maxLength := None;
     minValue := None; maxValue := None; values := None; properties := None;
     arrayType := None |}.

(** The shapes built on [Types.String]. *)
Definition text_based (shape : Shape.t) : bool :=
  match shape with
  | Shape.String | Shape.StringEnum | Shape.Email | Shape.Password
  | Shape.Uuid | Shape.Uri | Shape.Hostname | Shape.Ipv4 | Shape.Ipv6 => true
  | _ => false
  end.

(** The shapes that read [minLength] and [maxLength]. *)
Definition length_checked (shape : Shape.t) : bool :=
  match shape with
  | Shape.Binary | Shape.Byte | Shape.Array => true
  | _ => text_based shape
  end.

Definition enumeration (shape : Shape.t) : bool :=
  match shape with
  | Shape.StringEnum | Shape.NumberEnum | Shape.IntegerEnum => true
  | _ => false
  end.

(** The error conditions as the specification lists them: an enumeration
    without [values], an Object without [properties], an Array without
    [arrayType], and nothing else.  A call without any configuration has
    none of these fields. *)
Definition claimed_to_raise (shape : Shape.t) (parameters : option params) : bool :=
  match shape with
  | Shape.StringEnum | Shape.NumberEnum | Shape.IntegerEnum =>
      match parameters with
      | Some p => match values p with None => true | Some _ => false end
      | None => true
      end
  | Shape.Object =>
      match parameters with
      | Some p => match properties p with None => true | Some _ => false end
      | None => true
      end
  | Shape.Array =>
      match parameters with
      | Some p => match arrayType p with None => true | Some _ => false end
      | None => true
      end
  | _ => false
  end.

(** The error conditions of the factories: no configuration where one is
    read unconditionally, an Array without [arrayType], and an argument
    the builder rejects: a length, a numeric bound, an enumeration
    value. *)
Definition raises (shape : Shape.t) (parameters : option params) : bool :=
  match parameters with
  | None => mandatory shape
  | Some p =>
      (length_checked shape && negb (lengths_ok p))
      || (numeric shape && negb (numbers_ok p))
      || (enumeration shape && negb (values_ok (given (values p))))
      || match shape, arrayType p with
         | Shape.Array, None => true
         | _, _ => false
         end
  end.




(** The rules of a node that are not bounds. *)
Definition other_rules (s : schema) : list rule :=
  filter (fun r => match r with Rmin _ | Rmax _ => false | _ => true end) (_rules s).


(** The part of a configuration a factory reads: the common fields, the
    fields of its own parameter type that its body (or the factory it is
    built on) consults, and nothing else. *)
Definition relevant (shape : Shape.t) (p : params) : params :=
  {| description := description p;
     required := required p;
     nullable := nullable p;
     default :=
       match shape with
       | Shape.DateTime | Shape.Date => None
       | _ => default p
       end;
     example :=
       match shape with
       | Shape.DateTime | Shape.Date => None
       | _ => example p
       end;
     minLength := if length_checked shape then minLength p else None;
     maxLength := if length_checked shape then maxLength p else None;
     minValue := if numeric shape then minValue p else None;
     maxValue := if numeric shape then maxValue p else None;
     values := if enumeration shape then values p else None;
     properties := match shape with Shape.Object => properties p | _ => None end;
     arrayType := match shape with Shape.Array => arrayType p | _ => None end |}.

Definition set_minValue (n : option number) (p : params) : params :=
  {| description := description p; required := required p; nullable := nullable p;
     default := default p; example := example p; minLength := minLength p;
     maxLength := maxLength p; minValue := n; maxValue := maxValue p;
     values := values p; properties := properties p; arrayType := arrayType p |}.

Definition set_maxValue (n : option number) (p : params) : params :=
  {| description := description p; required := required p; nullable := nullable p;
     default := default p; example := example p; minLength := minLength p;
     maxLength := maxLength p; minValue := minValue p; maxValue := n;
     values := values p; properties := properties p; arrayType := arrayType p |}.

(** * Further configurations and readers *)

Definition set_nullable (b : option bool) (p : params) : params :=
  {| description := description p; required := required p; nullable := b;
     default := default p; example := example p; minLength := minLength p;
     maxLength := maxLength p; minValue := minValue p; maxValue := maxValue p;
     values := values p; properties := properties p; arrayType := arrayType p |}.

(** The configuration of an array of [t] and nothing else. *)
Definition element (t : schema) : params :=
  {| description := None; required := None; nullable := None;
     default := None; example := None; minLength := None; maxLength := None;
     minValue := None; maxValue := None; values := None; properties := None;
     arrayType := Some t |}.

(** Null, booleans, numbers and strings. *)
Definition primitive (v : value) : bool :=
  match v with
  | Null | Bool _ | Num _ | Str _ => true
  | Undefined | Arr _ | Obj _ => false
  end.

(** The factory an enumeration factory calls first. *)
Definition base_of (shape : Shape.t) : Shape.t :=
  match shape with
  | Shape.StringEnum => Shape.String
  | Shape.NumberEnum => Shape.Number
  | Shape.IntegerEnum => Shape.Integer
  | _ => shape
  end.

(** The bounds on the node of each shape: those a later call fixes
    ([Types.Uuid], [Types.Ipv4], [Types.Ipv6], [Types.Date]), the one
    [Types.DateTime] starts with, and otherwise the ones the [if]
    statements let through. *)
Definition lower_limits (shape : Shape.t) (p : params) : list number :=
  match shape with
  | Shape.Uuid => [Finite 36]
  | Shape.Ipv4 => [Finite 7]
  | Shape.Ipv6 => [Finite 3]
  | Shape.Date => [Finite 10]
  | Shape.DateTime | Shape.Boolean | Shape.Object => []
  | Shape.Number | Shape.NumberEnum | Shape.Integer | Shape.IntegerEnum =>
      opt_list (minValue p)
  | _ => opt_list (if_number (minLength p))
  end.

Definition upper_limits (shape : Shape.t) (p : params) : list number :=
  match shape with
  | Shape.Uuid => [Finite 36]
  | Shape.Ipv4 => [Finite 15]
  | Shape.Ipv6 => [Finite 45]
  | Shape.Date => [Finite 10]
  | Shape.DateTime => [Finite 24]
  | Shape.Boolean | Shape.Object => []
  | Shape.Number | Shape.NumberEnum | Shape.Integer | Shape.IntegerEnum =>
      opt_list (maxValue p)
  | _ => opt_list (if_number (maxLength p))
  end.

(** The shapes that put [minLength] and [maxLength] on the node and no
    bound of their own after them. *)
Definition plain_lengths (shape : Shape.t) : bool :=
  match shape with
  | Shape.String | Shape.StringEnum | Shape.Email | Shape.Password
  | Shape.Uri | Shape.Hostname | Shape.Binary | Shape.Byte | Shape.Array => true
  | _ => false
  end.

(** The test a shape puts before [joiType.default(...)] and
    [joiType.example(...)]: none of the two calls in [Types.DateTime],
    [typeof ... === "number"] in [Types.Number], [typeof ... === "boolean"]
    in [Types.Boolean], truthiness elsewhere. *)
Definition kept (shape : Shape.t) (v : value) : bool :=
  match shape with
  | Shape.DateTime | Shape.Date => false
  | Shape.Number | Shape.NumberEnum | Shape.Integer | Shape.IntegerEnum =>
      match v with Num _ => true | _ => false end
  | Shape.Boolean =>
      match v with Bool _ => true | _ => false end
  | _ => truthy v
  end.

(** The calls that end in a TypeError: a factory that reads a property of
    [parameters] without a test, called with none. *)
Definition type_error (shape : Shape.t) (parameters : option params) : bool :=
  match parameters with
  | None => mandatory shape
  | Some _ => false
  end.

(** * The node of a record without optional fields *)


(** * The validation engine on text nodes *)

(** Modelled from the spec: the engine that consumes the nodes (section 8
    of the specification speaks of strings a node accepts and rejects).
    It belongs to the validation library and is not among the sources.
    What follows covers a string checked against a text node, as the
    library does it: with value conversion on (the engine's default,
    unless the node turns it off) a string under the ISO-date rule is
    first replaced by its full ISO form, the 24 characters the upper bound
    of [Types.DateTime] makes room for; then an allowed value is accepted
    at once, a node restricted to its allowed values rejects the rest, the
    empty string is rejected unless the lower bound is 0, and every rule
    has to hold: the bounds on the length, and the format rules.  Which
    strings are well formed for a format rule, and what the ISO form of a
    date string is, are left open. *)
Section Engine.
Variable well_formed : rule -> string -> bool.
Variable iso_form : string -> option string.
Variable convert : bool.

Definition has_rule (name : string) (s : schema) : bool :=
  existsb (fun r => String.eqb (rule_name r) name) (_rules s).

Definition converts (s : schema) : bool :=
  match prefs_convert s with
  | Some b => b
  | None => convert
  end.

Definition coerced (s : schema) (v : string) : string :=
  if converts s && has_rule "isoDate" s
  then match iso_form v with
       | Some w => w
       | None => v
       end
  else v.

Definition check (v : string) (r : rule) : bool :=
  match r with
  | Rmin l => number_leb l (of_length (String.length v))
  | Rmax l => number_leb (of_length (String.length v)) l
  | _ => well_formed r v
  end.

Definition validate (s : schema) (v : string) : option bool :=
  match type s with
  | KString =>
      let w := coerced s v in
      Some (if existsb (fun a => value_eqb a (Str w)) (_valids s) then true
            else if flag_only (_flags s) then false
            else (negb (String.eqb w "")
                  || existsb (number_eqb (Finite 0)) (min_limits s))
                 && forallb (check w) (_rules s))
  | _ => None
  end.
End Engine.

(** An engine for which every string is well formed, and which knows the
    ISO form of one date. *)
Definition any_form (r : rule) (v : string) : bool := true.

Definition iso_form_2020 (v : string) : option string :=
  if String.eqb v "2020-01-01" then Some "2020-01-01T00:00:00.000Z" else None.

(** * The factories on a store *)

(** The factories once more, with the objects they handle kept in a store,
    so that what a call does to objects that exist already can be stated.
    A configuration record and a node are cells of the store, a value of
    type [loc] is a reference to a cell, and a computation takes the store
    and gives its result and the store it leaves.  The record is read
    through the reference the caller passes; a factory holds its node in
    the local variable [joiType], a reference.

    Modelled from the spec: the builder never changes a node it is called
    on.  Each constructor makes a new node, and each method makes a copy
    of the node it is called on, changes the copy and returns it; a method
    reads its arguments and keeps them as they are.  This is the behaviour
    of the validation library, which is not among the sources.  The nodes
    inside a property map or an array type are taken by their content. *)
Module Heap.

Inductive cell : Type :=
| Config (p : params)
| Node (s : schema).

Definition heap : Type := list cell.
Definition loc : Type := nat.

Definition M (A : Type) : Type := heap -> result A * heap.

Definition lift {A : Type} (r : result A) : M A := fun h => (r, h).

Definition ret {A : Type} (a : A) : M A := lift (OK a).

Definition bind {A B : Type} (m : M A) (k : A -> M B) : M B :=
  fun h =>
    match m h with
    | (OK a, h') => k a h'
    | (Throw e, h') => (Throw e, h')
    end.

Notation "x <~ e ;; k" := (bind e (fun x => k))
  (at level 61, e at next level, right associativity).

(* a new object, at the end of the store *)
Definition alloc (s : schema) : M loc :=
  fun h => (OK (length h), h ++ [Node s]).

(* parameters.f, and a name of const { ... } = parameters: a TypeError
   when parameters is undefined.  A reference that is not to a record is
   no argument of a factory ([refers] below); it is given the same error *)
Definition field {A : Type} (f : params -> A) (parameters : option loc) : M A :=
  fun h =>
    match parameters with
    | Some r =>
        match nth_error h r with
        | Some (Config p) => (OK (f p), h)
        | _ => (Throw TypeError, h)
        end
    | None => (Throw TypeError, h)
    end.

(* obj.f = ...: an assignment to a cell that exists.  No factory contains
   one; it is here for what the store would show if one did *)
Definition assign (l : loc) (c : cell) : M unit :=
  fun h => (OK tt, firstn l h ++ c :: skipn (S l) h).

(* joiType.m(...): the method reads the node and returns a new one;
   joiType is always a reference to a node, the last case does not occur *)
Definition call (m : schema -> result schema) (joiType : loc) : M loc :=
  fun h =>
    match nth_error h joiType with
    | Some (Node s) =>
        match m s with
        | OK s' => alloc s' h
        | Throw e => (Throw e, h)
        end
    | _ => (Throw TypeError, h)
    end.

(* if (c) { joiType = joiType.m(x); } *)
Definition when_ {A : Type} (c : option A) (m : A -> schema -> result schema)
    (joiType : loc) : M loc :=
  match c with
  | Some x => call (m x) joiType
  | None => ret joiType
  end.

Definition String (parameters : option loc) : M loc :=
  joiType <~ alloc Joi.string ;;
  match parameters with
  | Some _ =>
      description' <~ field description parameters ;;
      required' <~ field required parameters ;;
      nullable' <~ field nullable parameters ;;
      maxLength' <~ field maxLength parameters ;;
      minLength' <~ field minLength parameters ;;
      example' <~ field example parameters ;;
      joiType <~ when_ (if_string description') Joi.description joiType ;;
      joiType <~ when_ required' required_or_optional joiType ;;
      joiType <~ when_ (if_true nullable') (fun _ => Joi.allow [Null]) joiType ;;
      joiType <~ when_ (if_number minLength') Joi.min joiType ;;
      joiType <~ when_ (if_number maxLength') Joi.max joiType ;;
      default' <~ field default parameters ;;
      joiType <~ when_ (if_value default') Joi.default joiType ;;
      joiType <~ when_ (if_value example') Joi.example joiType ;;
      ret joiType
  | None => ret joiType
  end.

Definition StringEnum (parameters : option loc) : M loc :=
  joiType <~ String parameters ;;
  values' <~ field values parameters ;;
  vs <~ lift (spread values') ;;
  call (Joi.valid vs) joiType.

Definition Email (parameters : option loc) : M loc :=
  joiType <~ String parameters ;;
  call Joi.email joiType.

Definition Password (parameters : option loc) : M loc :=
  joiType <~ String parameters ;;
  call (Joi.meta (format "password")) joiType.

Definition Uuid (parameters : option loc) : M loc :=
  joiType <~ String parameters ;;
  joiType <~ call (Joi.uuid "uuidv4") joiType ;;
  joiType <~ call (Joi.meta (format "uuid")) joiType ;;
  joiType <~ call (Joi.min (Finite 36)) joiType ;;
  call (Joi.max (Finite 36)) joiType.

Definition Uri (parameters : option loc) : M loc :=
  joiType <~ String parameters ;;
  joiType <~ call Joi.uri joiType ;;
  call (Joi.meta (format "uri")) joiType.

Definition Hostname (parameters : option loc) : M loc :=
  joiType <~ String parameters ;;
  joiType <~ call Joi.hostname joiType ;;
  call (Joi.meta (format "hostname")) joiType.

Definition Ipv4 (parameters : option loc) : M loc :=
  joiType <~ String parameters ;;
  joiType <~ call (Joi.ip ["ipv4"]) joiType ;;
  joiType <~ call (Joi.meta (format "ipv4")) joiType ;;
  joiType <~ call (Joi.min (Finite 7)) joiType ;;
  call (Joi.max (Finite 15)) joiType.

Definition Ipv6 (parameters : option loc) : M loc :=
  joiType <~ String parameters ;;
  joiType <~ call (Joi.ip ["ipv6"]) joiType ;;
  joiType <~ call (Joi.meta (format "ipv6")) joiType ;;
  joiType <~ call (Joi.min (Finite 3)) joiType ;;
  call (Joi.max (Finite 45)) joiType.

Definition Binary (parameters : option loc) : M loc :=
  joiType <~ alloc Joi.binary ;;
  match parameters with
  | Some _ =>
      description' <~ field description parameters ;;
      required' <~ field required parameters ;;
      nullable' <~ field nullable parameters ;;
      maxLength' <~ field maxLength parameters ;;
      minLength' <~ field minLength parameters ;;
      example' <~ field example parameters ;;
      joiType <~ when_ (if_string description') Joi.description joiType ;;
      joiType <~ when_ required' required_or_optional joiType ;;
      joiType <~ when_ (if_true nullable') (fun _ => Joi.allow [Null]) joiType ;;
      joiType <~ when_ (if_number minLength') Joi.min joiType ;;
      joiType <~ when_ (if_number maxLength') Joi.max joiType ;;
      default' <~ field default parameters ;;
      joiType <~ when_ (if_value default') Joi.default joiType ;;
      joiType <~ when_ (if_value example') Joi.example joiType ;;
      ret joiType
  | None => ret joiType
  end.

Definition Byte (parameters : option loc) : M loc :=
  joiType <~ Binary parameters ;;
  call (Joi.encoding "base64") joiType.

Definition DateTime (parameters : option loc) : M loc :=
  joiType <~ alloc Joi.string ;;
  joiType <~ call Joi.isoDate joiType ;;
  joiType <~ call (Joi.max (Finite 24)) joiType ;;
  match parameters with
  | Some _ =>
      description' <~ field description parameters ;;
      required' <~ field required parameters ;;
      nullable' <~ field nullable parameters ;;
      joiType <~ when_ (if_string description') Joi.description joiType ;;
      joiType <~ when_ required' required_or_optional joiType ;;
      joiType <~ when_ (if_true nullable') (fun _ => Joi.allow [Null]) joiType ;;
      ret joiType
  | None => ret joiType
  end.

Definition Date (parameters : option loc) : M loc :=
  joiType <~ DateTime parameters ;;
  joiType <~ call (Joi.meta (format "date")) joiType ;;
  joiType <~ call (Joi.min (Finite 10)) joiType ;;
  call (Joi.max (Finite 10)) joiType.

Definition Number (parameters : option loc) : M loc :=
  joiType <~ alloc Joi.number ;;
  match parameters with
  | Some _ =>
      description' <~ field description parameters ;;
      required' <~ field required parameters ;;
      nullable' <~ field nullable parameters ;;
      minValue' <~ field minValue parameters ;;
      maxValue' <~ field maxValue parameters ;;
      example' <~ field example parameters ;;
      joiType <~ when_ (if_string description') Joi.description joiType ;;
      joiType <~ when_ (if_true required') (fun _ => Joi.required) joiType ;;
      joiType <~ when_ (if_true nullable') (fun _ => Joi.allow [Null]) joiType ;;
      joiType <~ when_ minValue' Joi.min joiType ;;
      joiType <~ when_ maxValue' Joi.max joiType ;;
      default' <~ field default parameters ;;
      joiType <~ when_ (typeof_number default') Joi.default joiType ;;
      joiType <~ when_ (typeof_number example') Joi.example joiType ;;
      ret joiType
  | None => ret joiType
  end.

Definition NumberEnum (parameters : option loc) : M loc :=
  joiType <~ Number parameters ;;
  values' <~ field values parameters ;;
  vs <~ lift (spread values') ;;
  call (Joi.valid vs) joiType.

Definition Integer (parameters : option loc) : M loc :=
  joiType <~ Number parameters ;;
  call Joi.integer joiType.

Definition IntegerEnum (parameters : option loc) : M loc :=
  joiType <~ Integer parameters ;;
  values' <~ field values parameters ;;
  vs <~ lift (spread values') ;;
  call (Joi.valid vs) joiType.

Definition Boolean (parameters : option loc) : M loc :=
  joiType <~ alloc Joi.boolean ;;
  joiType <~ call Joi.strict joiType ;;
  match parameters with
  | Some _ =>
      description' <~ field description parameters ;;
      required' <~ field required parameters ;;
      nullable' <~ field nullable parameters ;;
      example' <~ field example parameters ;;
      joiType <~ when_ (if_string description') Joi.description joiType ;;
      joiType <~ when_ required' required_or_optional joiType ;;
      joiType <~ when_ (if_true nullable') (fun _ => Joi.allow [Null]) joiType ;;
      default' <~ field default parameters ;;
      joiType <~ when_ (typeof_boolean default') Joi.default joiType ;;
      joiType <~ when_ (typeof_boolean example') Joi.example joiType ;;
      ret joiType
  | None => ret joiType
  end.

Definition Object (parameters : option loc) : M loc :=
  properties' <~ field properties parameters ;;
  description' <~ field description parameters ;;
  required' <~ field required parameters ;;
  nullable' <~ field nullable parameters ;;
  example' <~ field example parameters ;;
  joiType <~ alloc Joi.object ;;
  joiType <~ call (Joi.keys properties') joiType ;;
  joiType <~ when_ (if_string description') Joi.description joiType ;;
  joiType <~ when_ required' required_or_optional joiType ;;
  joiType <~ when_ (if_true nullable') (fun _ => Joi.allow [Null]) joiType ;;
  default' <~ field default parameters ;;
  joiType <~ when_ (if_value default') Joi.default joiType ;;
  joiType <~ when_ (if_value example') Joi.example joiType ;;
  ret joiType.

Definition Array (parameters : option loc) : M loc :=
  arrayType' <~ field arrayType parameters ;;
  description' <~ field description parameters ;;
  required' <~ field required parameters ;;
  nullable' <~ field nullable parameters ;;
  example' <~ field example parameters ;;
  minLength' <~ field minLength parameters ;;
  maxLength' <~ field maxLength parameters ;;
  joiType <~ alloc Joi.array ;;
  joiType <~ call (Joi.items [arrayType']) joiType ;;
  joiType <~ when_ (if_string description') Joi.description joiType ;;
  joiType <~ when_ required' required_or_optional joiType ;;
  joiType <~ when_ (if_true nullable') (fun _ => Joi.allow [Null]) joiType ;;
  default' <~ field default parameters ;;
  joiType <~ when_ (if_value default') Joi.default joiType ;;
  joiType <~ when_ (if_value example') Joi.example joiType ;;
  joiType <~ when_ (if_number minLength') Joi.min joiType ;;
  joiType <~ when_ (if_number maxLength') Joi.max joiType ;;
  ret joiType.

Definition factory (shape : Shape.t) : option loc -> M loc :=
  match shape with
  | Shape.String => String
  | Shape.StringEnum => StringEnum
  | Shape.Email => Email
  | Shape.Password => Password
  | Shape.Uuid => Uuid
  | Shape.Uri => Uri
  | Shape.Hostname => Hostname
  | Shape.Ipv4 => Ipv4
  | Shape.Ipv6 => Ipv6
  | Shape.Binary => Binary
  | Shape.Byte => Byte
  | Shape.DateTime => DateTime
  | Shape.Date => Date
  | Shape.Number => Number
  | Shape.NumberEnum => NumberEnum
  | Shape.Integer => Integer
  | Shape.IntegerEnum => IntegerEnum
  | Shape.Boolean => Boolean
  | Shape.Object => Object
  | Shape.Array => Array
  end.

(** The argument of a call: nothing, for a configuration left out, or a
    reference to a record of the store with the fields [p]. *)
Definition refers (h : heap) (parameters : option loc) (cfg : option params) : Prop :=
  match parameters, cfg with
  | None, None => True
  | Some r, Some p => nth_error h r = Some (Config p)
  | _, _ => False
  end.

(** What the caller gets: the error raised, or the content of the node
    behind the reference returned. *)
Definition outcome (x : result loc * heap) : option (result schema) :=
  match fst x with
  | OK l =>
      match nth_error (snd x) l with
      | Some (Node s) => Some (OK s)
      | _ => None
      end
  | Throw e => Some (Throw e)
  end.

(** A store that has everything of [h], unchanged and in place, and new
    nodes after it. *)
Definition extends (h h' : heap) : Prop :=
  exists nodes, h' = h ++ map Node nodes.

(** Cells known to be in the store. *)
Definition holds (fs : list (loc * cell)) (h : heap) : Prop :=
  forall l c, In (l, c) fs -> nth_error h l = Some c.

Definition known (fs : list (loc * cell)) (parameters : option loc)
    (cfg : option params) : Prop :=
  match parameters, cfg with
  | None, None => True
  | Some r, Some p => In (r, Config p) fs
  | _, _ => False
  end.

(** The computation [m], run on a store with the cells [fs], adds nodes
    to the store and nothing else, and ends as [r] says: with the error,
    or with a reference to a node with the content [r] gives. *)
Definition sim (fs : list (loc * cell)) (m : M loc) (r : result schema) : Prop :=
  forall h, holds fs h ->
    extends h (snd (m h)) /\
    match r with
    | OK s => exists l, fst (m h) = OK l /\ nth_error (snd (m h)) l = Some (Node s)
    | Throw e => fst (m h) = Throw e
    end.

End Heap.

Definition set_values (vs : option (list value)) (p : params) : params :=
  {| description := description p; required := required p; nullable := nullable p;
     default := default p; example := example p; minLength := minLength p;
     maxLength := maxLength p; minValue := minValue p; maxValue := maxValue p;
     values := vs; properties := properties p; arrayType := arrayType p |}.

(** * The closed forms are what the factories compute *)

Section Steps.
Variable j : schema.

Lemma step_description d :
  when_ (if_string d) Joi.description j =
  OK (match if_string d with
      | Some s => Joi.setFlag (put_description s) j
      | None => j
      end).
Proof.
  destruct d as [[|c s]|]; reflexivity.
Qed.

Lemma step_required r :
  when_ r required_or_optional j =
  OK (match r with
      | Some b => Joi.setFlag (put_presence (presence_of b)) j
      | None => j
      end).
Proof.
  destruct r as [[|]|]; reflexivity.
Qed.

Lemma step_required_true r :
  when_ (if_true r) (fun _ => Joi.required) j =
  OK (match if_true r with
      | Some _ => Joi.setFlag (put_presence Required) j
      | None => j
      end).
Proof.
  destruct r as [[|]|]; reflexivity.
Qed.

Lemma step_nullable n :
  when_ (if_true n) (fun _ => Joi.allow [Null]) j =
  OK (match if_true n with
      | Some _ => with_valids (Joi.values_add Null (_valids j)) j
      | None => j
      end).
Proof.
  destruct n as [[|]|]; reflexivity.
Qed.

Lemma truthy_defined v : truthy v = true -> is_undefined v = false.
Proof.
  destruct v; simpl; congruence.
Qed.

Lemma step_default v :
  when_ (if_value v) Joi.default j =
  OK (match if_value v with
      | Some x => Joi.setFlag (put_default x) j
      | None => j
      end).
Proof.
  destruct v as [x|]; simpl; [|reflexivity].
  destruct (truthy x) eqn:T; simpl; [|reflexivity].
  unfold Joi.default. now rewrite (truthy_defined _ T).
Qed.

Lemma step_example v :
  when_ (if_value v) Joi.example j =
  OK (match if_value v with
      | Some x => with_examples (terms_examples j ++ [x]) j
      | None => j
      end).
Proof.
  destruct v as [x|]; simpl; [|reflexivity].
  destruct (truthy x) eqn:T; simpl; [|reflexivity].
  unfold Joi.example. now rewrite (truthy_defined _ T).
Qed.

Lemma step_default_number v :
  when_ (typeof_number v) Joi.default j =
  OK (match typeof_number v with
      | Some x => Joi.setFlag (put_default x) j
      | None => j
      end).
Proof.
  destruct v as [[]|]; reflexivity.
Qed.

Lemma step_example_number v :
  when_ (typeof_number v) Joi.example j =
  OK (match typeof_number v with
      | Some x => with_examples (terms_examples j ++ [x]) j
      | None => j
      end).
Proof.
  destruct v as [[]|]; reflexivity.
Qed.

Lemma step_default_boolean v :
  when_ (typeof_boolean v) Joi.default j =
  OK (match typeof_boolean v with
      | Some x => Joi.setFlag (put_default x) j
      | None => j
      end).
Proof.
  destruct v as [[]|]; reflexivity.
Qed.

Lemma step_example_boolean v :
  when_ (typeof_boolean v) Joi.example j =
  OK (match typeof_boolean v with
      | Some x => with_examples (terms_examples j ++ [x]) j
      | None => j
      end).
Proof.
  destruct v as [[]|]; reflexivity.
Qed.

Lemma step_min n :
  has_length (type j) = true ->
  when_ (if_number n) Joi.min j =
  if length_ok n
  then OK (match if_number n with
           | Some x => Joi.addRule (Rmin x) j
           | None => j
           end)
  else Throw AssertError.
Proof.
  intros K. unfold length_ok, when_, Joi.min, Joi.bound_ok.
  destruct (if_number n) as [x|]; [|reflexivity].
  destruct (type j); try discriminate K; destruct (Joi.limit x); reflexivity.
Qed.

Lemma step_max n :
  has_length (type j) = true ->
  when_ (if_number n) Joi.max j =
  if length_ok n
  then OK (match if_number n with
           | Some x => Joi.addRule (Rmax x) j
           | None => j
           end)
  else Throw AssertError.
Proof.
  intros K. unfold length_ok, when_, Joi.max, Joi.bound_ok.
  destruct (if_number n) as [x|]; [|reflexivity].
  destruct (type j); try discriminate K; destruct (Joi.limit x); reflexivity.
Qed.
End Steps.

Ltac kind_known :=
  repeat match goal with
         | |- context [match ?c with Some _ => _ | None => _ end] => destruct c
         end;
  reflexivity.

Ltac steps :=
  repeat (first
    [ rewrite step_description | rewrite step_required
    | rewrite step_required_true | rewrite step_nullable
    | rewrite step_default | rewrite step_example
    | rewrite step_default_number | rewrite step_example_number
    | rewrite step_default_boolean | rewrite step_example_boolean
    | rewrite step_min by kind_known
    | rewrite step_max by kind_known ];
    cbn [bind]).

Ltac split_guards :=
  repeat match goal with
         | |- context [if length_ok ?n then _ else _] =>
             let L := fresh "L" in
             destruct (length_ok n) eqn:L; cbn [bind andb]; try reflexivity; steps
         end;
  repeat match goal with
         | |- context [match ?c with Some _ => _ | None => _ end] => destruct c
         end.

Lemma String_closed p :
  Types.String (Some p) =
  if lengths_ok p then OK (text_node KString p) else Throw AssertError.
Proof.
  unfold Types.String, lengths_ok, text_node, null_valids. steps.
  split_guards; reflexivity.
Qed.

(** The fixed bounds of the factories are length bounds the builder accepts. *)
Ltac fixed_limits :=
  repeat match goal with
         | |- context [Joi.limit (Finite ?q)] =>
             change (Joi.limit (Finite q)) with true
         end.

Lemma Binary_closed p :
  Types.Binary (Some p) =
  if lengths_ok p then OK (text_node KBinary p) else Throw AssertError.
Proof.
  unfold Types.Binary, lengths_ok, text_node, null_valids. steps.
  split_guards; reflexivity.
Qed.

Lemma DateTime_closed p : Types.DateTime (Some p) = OK (date_node p).
Proof.
  unfold Types.DateTime, date_node, null_valids. cbn. fixed_limits.
  cbn [bind]. steps.
  split_guards; reflexivity.
Qed.

Lemma step_min_value j n :
  type j = KNumber ->
  when_ n Joi.min j =
  if number_ok n
  then OK (match n with
           | Some x => Joi.addRule (Rmin x) j
           | None => j
           end)
  else Throw AssertError.
Proof.
  intros K. unfold number_ok, when_, Joi.min, Joi.bound_ok.
  destruct n as [x|]; [|reflexivity].
  rewrite K. destruct (Joi.isNumber x); reflexivity.
Qed.

Lemma step_max_value j n :
  type j = KNumber ->
  when_ n Joi.max j =
  if number_ok n
  then OK (match n with
           | Some x => Joi.addRule (Rmax x) j
           | None => j
           end)
  else Throw AssertError.
Proof.
  intros K. unfold number_ok, when_, Joi.max, Joi.bound_ok.
  destruct n as [x|]; [|reflexivity].
  rewrite K. destruct (Joi.isNumber x); reflexivity.
Qed.

Lemma Number_closed p :
  Types.Number (Some p) =
  if numbers_ok p then OK (number_node p) else Throw AssertError.
Proof.
  unfold Types.Number, numbers_ok, number_node, null_valids. steps.
  rewrite step_min_value by kind_known.
  destruct (number_ok (minValue p)); cbn [bind andb]; [|reflexivity].
  rewrite step_max_value by kind_known.
  destruct (number_ok (maxValue p)); cbn [bind andb]; [|reflexivity].
  steps. split_guards; reflexivity.
Qed.

Lemma Boolean_closed p : Types.Boolean (Some p) = OK (boolean_node p).
Proof.
  unfold Types.Boolean, boolean_node, null_valids. cbn. steps.
  split_guards; reflexivity.
Qed.

Lemma Object_closed p : Types.Object (Some p) = OK (object_node p).
Proof.
  unfold Types.Object, object_node, null_valids. cbn [member bind].
  assert (K : Joi.keys (properties p) Joi.object =
              OK (with_keys (properties p) Joi.object)).
  { destruct (properties p) as [[|kv kvs]|]; reflexivity. }
  rewrite K. cbn [bind]. steps.
  split_guards; reflexivity.
Qed.

Lemma Array_closed p :
  Types.Array (Some p) =
  match arrayType p with
  | Some t => if lengths_ok p then OK (array_node t p) else Throw AssertError
  | None => Throw AssertError
  end.
Proof.
  unfold Types.Array, lengths_ok, array_node, null_valids. cbn [member bind].
  destruct (arrayType p) as [t|]; [|reflexivity]. cbn. steps.
  split_guards; reflexivity.
Qed.

Lemma addValues_closed vs : forall s,
  Joi.addValues vs s =
  if existsb is_undefined vs then Throw AssertError
  else OK (with_valids (collect vs (_valids s)) s).
Proof.
  induction vs as [|v vs IH]; intros s; cbn.
  - now destruct s.
  - destruct (is_undefined v); cbn; [reflexivity|].
    rewrite IH. reflexivity.
Qed.

Lemma valid_closed vs s :
  Joi.valid vs s =
  if values_ok vs then OK (enum_node vs s) else Throw AssertError.
Proof.
  unfold Joi.valid, Joi.allow, values_ok, enum_node.
  destruct (Joi.verifyFlat vs); cbn [andb]; [|reflexivity].
  rewrite addValues_closed.
  destruct (existsb is_undefined vs); reflexivity.
Qed.

Ltac text_rules p :=
  unfold text_node; cbn; fixed_limits; cbn;
  destruct (if_number (minLength p)), (if_number (maxLength p)); reflexivity.

Ltac enum p :=
  cbn [bind member]; unfold enum_closed;
  destruct (values p) as [vs|]; cbn [bind spread given];
  rewrite valid_closed; reflexivity.

Lemma integer_rule p :
  Joi.addRule Rinteger (number_node p) =
  with_rules (_rules (number_node p) ++ [Rinteger]) (number_node p).
Proof.
  unfold number_node. cbn. destruct (minValue p), (maxValue p); reflexivity.
Qed.

Lemma factory_closed shape p : Types.factory shape (Some p) = closed shape p.
Proof.
  destruct shape; unfold closed, guard; cbn [Types.factory].
  - apply String_closed.
  - unfold Types.StringEnum. rewrite String_closed.
    destruct (lengths_ok p); [enum p | reflexivity].
  - unfold Types.Email. rewrite String_closed.
    destruct (lengths_ok p); [text_rules p | reflexivity].
  - unfold Types.Password. rewrite String_closed.
    destruct (lengths_ok p); reflexivity.
  - unfold Types.Uuid. rewrite String_closed.
    destruct (lengths_ok p); [text_rules p | reflexivity].
  - unfold Types.Uri. rewrite String_closed.
    destruct (lengths_ok p); [text_rules p | reflexivity].
  - unfold Types.Hostname. rewrite String_closed.
    destruct (lengths_ok p); [text_rules p | reflexivity].
  - unfold Types.Ipv4. rewrite String_closed.
    destruct (lengths_ok p); [text_rules p | reflexivity].
  - unfold Types.Ipv6. rewrite String_closed.
    destruct (lengths_ok p); [text_rules p | reflexivity].
  - apply Binary_closed.
  - unfold Types.Byte. rewrite Binary_closed.
    destruct (lengths_ok p); reflexivity.
  - apply DateTime_closed.
  - unfold Types.Date. rewrite DateTime_closed. cbn. fixed_limits. reflexivity.
  - apply Number_closed.
  - unfold Types.NumberEnum. rewrite Number_closed.
    destruct (numbers_ok p); [enum p | reflexivity].
  - unfold Types.Integer. rewrite Number_closed.
    destruct (numbers_ok p); [|reflexivity].
    cbn [bind]. unfold Joi.integer, Joi.method_of. cbn [type number_node].
    now rewrite integer_rule.
  - unfold Types.IntegerEnum, Types.Integer. rewrite Number_closed.
    destruct (numbers_ok p); [|reflexivity].
    cbn [bind]. unfold Joi.integer, Joi.method_of. cbn [type number_node bind].
    rewrite integer_rule. enum p.
  - apply Boolean_closed.
  - apply Object_closed.
  - rewrite Array_closed. reflexivity.
Qed.

Lemma factory_no_parameters shape :
  Types.factory shape None =
  if mandatory shape then Throw TypeError else closed shape no_params.
Proof.
  destruct shape; reflexivity.
Qed.

Lemma raises_closed shape p :
  is_ok (closed shape p) = negb (raises shape (Some p)).
Proof.
  destruct shape; cbn [closed raises length_checked text_based numeric enumeration
    andb orb negb]; unfold guard, enum_closed;
  rewrite ?orb_false_r;
  try (destruct (lengths_ok p); cbn [negb orb andb]);
  try (destruct (numbers_ok p); cbn [negb orb andb]);
  try (destruct (values_ok (given (values p))));
  try (destruct (arrayType p); [destruct (lengths_ok p)|]);
  reflexivity.
Qed.

(** * A later bound replaces an earlier one *)

Section Rules.
Variable s : schema.

Lemma no_min_left rs :
  flat_map (fun r => match r with Rmin l => [l] | _ => [] end)
    (filter (fun r => negb (String.eqb (rule_name r) "min")) rs) = [].
Proof.
  induction rs as [|r rs IH]; [reflexivity|].
  destruct r; cbn; assumption.
Qed.

Lemma no_max_left rs :
  flat_map (fun r => match r with Rmax l => [l] | _ => [] end)
    (filter (fun r => negb (String.eqb (rule_name r) "max")) rs) = [].
Proof.
  induction rs as [|r rs IH]; [reflexivity|].
  destruct r; cbn; assumption.
Qed.

Lemma max_kept rs :
  flat_map (fun r => match r with Rmax l => [l] | _ => [] end)
    (filter (fun r => negb (String.eqb (rule_name r) "min")) rs) =
  flat_map (fun r => match r with Rmax l => [l] | _ => [] end) rs.
Proof.
  induction rs as [|r rs IH]; [reflexivity|].
  destruct r; cbn; rewrite ?IH; reflexivity.
Qed.

Lemma min_kept rs :
  flat_map (fun r => match r with Rmin l => [l] | _ => [] end)
    (filter (fun r => negb (String.eqb (rule_name r) "max")) rs) =
  flat_map (fun r => match r with Rmin l => [l] | _ => [] end) rs.
Proof.
  induction rs as [|r rs IH]; [reflexivity|].
  destruct r; cbn; rewrite ?IH; reflexivity.
Qed.

Lemma min_replaces x :
  min_limits (Joi.addRule (Rmin x) s) = [x] /\
  max_limits (Joi.addRule (Rmin x) s) = max_limits s.
Proof.
  unfold min_limits, max_limits, Joi.addRule, Joi.ruleRemove. cbn.
  rewrite !flat_map_app, no_min_left, max_kept. cbn.
  now rewrite app_nil_r.
Qed.

Lemma max_replaces x :
  max_limits (Joi.addRule (Rmax x) s) = [x] /\
  min_limits (Joi.addRule (Rmax x) s) = min_limits s.
Proof.
  unfold min_limits, max_limits, Joi.addRule, Joi.ruleRemove. cbn.
  rewrite !flat_map_app, no_max_left, min_kept. cbn.
  now rewrite app_nil_r.
Qed.
End Rules.

(** Whatever bounds a node has, [.min(lo).max(hi)] leaves it with the
    bounds [lo] and [hi] and no other. *)
Lemma bounds_override s lo hi s1 s2 :
  Joi.min lo s = OK s1 ->
  Joi.max hi s1 = OK s2 ->
  min_limits s2 = [lo] /\ max_limits s2 = [hi].
Proof.
  unfold Joi.min, Joi.max. intros H1 H2.
  destruct (Joi.bound_ok (type s) lo) as [[|]|]; try discriminate H1.
  injection H1 as <-.
  destruct (Joi.bound_ok _ hi) as [[|]|]; try discriminate H2.
  injection H2 as <-.
  destruct (max_replaces (Joi.addRule (Rmin lo) s) hi) as [U L].
  rewrite U, L. split; [apply min_replaces | reflexivity].
Qed.

(** * Requiredness *)

(** Open up a hypothesis [closed shape p = OK n]: decide the conditions
    under which the factory raises, and name the node. *)
Ltac crack H :=
  repeat match type of H with
         | context [if ?c then _ else _] =>
             destruct c; cbv iota beta in H; try discriminate H
         | context [match ?c with Some _ => _ | None => _ end] =>
             destruct c; cbv iota beta in H; try discriminate H
         end;
  injection H as H; try subst.

Lemma requiredness_of_variants shape p nt nf no :
  Types.factory shape (Some (set_required (Some true) p)) = OK nt ->
  Types.factory shape (Some (set_required (Some false) p)) = OK nf ->
  Types.factory shape (Some (set_required None p)) = OK no ->
  requiredness nt = Some Required /\
  requiredness no = None /\
  (if numeric shape then nf = no else requiredness nf = Some Optional).
Proof.
  rewrite !factory_closed. intros Ht Hf Ho.
  destruct shape; cbn in Ht, Hf, Ho;
    unfold guard, enum_closed, lengths_ok, numbers_ok, set_required in *;
    cbn in Ht, Hf, Ho;
    crack Ht; crack Hf; crack Ho; cbn; auto.
Qed.

Lemma is_ok_returns {A : Type} (r : result A) :
  is_ok r = true -> exists a, r = OK a.
Proof.
  destruct r as [a|e]; [eauto | discriminate].
Qed.

Lemma required_never_raises shape r p :
  is_ok (Types.factory shape (Some (set_required r p))) =
  is_ok (Types.factory shape (Some p)).
Proof.
  rewrite !factory_closed, !raises_closed. reflexivity.
Qed.

(** C1: take any factory and any configuration on which it does not
    raise; whether it raises does not depend on [required].  With
    [required: true], with [required: false] and with [required] left out
    it returns three nodes, in three different requiredness states:
    required, optional, unset.  For Number, NumberEnum, Integer and
    IntegerEnum the node for [required: false] is instead the very node
    for the omitted field. *)
Theorem required_three_states shape p :
  raises shape (Some p) = false ->
  exists nt nf no,
    Types.factory shape (Some (set_required (Some true) p)) = OK nt /\
    Types.factory shape (Some (set_required (Some false) p)) = OK nf /\
    Types.factory shape (Some (set_required None p)) = OK no /\
    requiredness nt = Some Required /\
    requiredness no = None /\
    (if numeric shape then nf = no else requiredness nf = Some Optional).
Proof.
  intros H.
  assert (R : forall r, exists m,
             Types.factory shape (Some (set_required r p)) = OK m).
  { intros r. apply is_ok_returns.
    rewrite required_never_raises, factory_closed, raises_closed.
    now rewrite H. }
  destruct (R (Some true)) as [nt Ht], (R (Some false)) as [nf Hf],
    (R None) as [no Ho].
  exists nt, nf, no. repeat (split; [assumption|]).
  exact (requiredness_of_variants shape p nt nf no Ht Hf Ho).
Qed.

Lemma required_three_states_witness :
  (raises Shape.Boolean (Some no_params) = false /\
   exists nt nf no,
     Types.Boolean (Some (set_required (Some true) no_params)) = OK nt /\
     Types.Boolean (Some (set_required (Some false) no_params)) = OK nf /\
     Types.Boolean (Some (set_required None no_params)) = OK no /\
     requiredness nt = Some Required /\
     requiredness no = None /\
     requiredness nf = Some Optional) /\
  (raises Shape.Email (Some (set_minLength (Some (Finite 2)) no_params)) = false /\
   exists nt nf no,
     Types.Email (Some (set_required (Some true)
                          (set_minLength (Some (Finite 2)) no_params))) = OK nt /\
     Types.Email (Some (set_required (Some false)
                          (set_minLength (Some (Finite 2)) no_params))) = OK nf /\
     Types.Email (Some (set_required None
                          (set_minLength (Some (Finite 2)) no_params))) = OK no /\
     requiredness nt = Some Required /\
     requiredness no = None /\
     requiredness nf = Some Optional) /\
  (raises Shape.Integer (Some (set_minValue (Some (Finite 0)) no_params)) = false /\
   exists nt nf no,
     Types.Integer (Some (set_required (Some true)
                            (set_minValue (Some (Finite 0)) no_params))) = OK nt /\
     Types.Integer (Some (set_required (Some false)
                            (set_minValue (Some (Finite 0)) no_params))) = OK nf /\
     Types.Integer (Some (set_required None
                            (set_minValue (Some (Finite 0)) no_params))) = OK no /\
     requiredness nt = Some Required /\
     requiredness no = None /\
     nf = no).
Proof.
  assert (B : raises Shape.Boolean (Some no_params) = false)
    by (vm_compute; reflexivity).
  assert (E : raises Shape.Email
                (Some (set_minLength (Some (Finite 2)) no_params)) = false)
    by (vm_compute; reflexivity).
  assert (I : raises Shape.Integer
                (Some (set_minValue (Some (Finite 0)) no_params)) = false)
    by (vm_compute; reflexivity).
  split; [|split].
  - split; [exact B|]. exact (required_three_states Shape.Boolean _ B).
  - split; [exact E|]. exact (required_three_states Shape.Email _ E).
  - split; [exact I|]. exact (required_three_states Shape.Integer _ I).
Defined.

(** * Forced length bounds *)

Lemma bind_returns {A B : Type} (r : result A) (k : A -> result B) b :
  (x <- r ;; k x) = OK b -> exists a, r = OK a /\ k a = OK b.
Proof.
  destruct r as [a|e]; cbn; [eauto | discriminate].
Qed.

(** The chain [Types.String(parameters).f(...).meta(...).min(lo).max(hi)]:
    keep its last two calls. *)
Ltac last_two_calls H :=
  do 3 (apply bind_returns in H as (? & _ & H));
  apply bind_returns in H as (? & ?Hmin & H).

Lemma as_factory :
  Types.Uuid = Types.factory Shape.Uuid /\
  Types.Ipv4 = Types.factory Shape.Ipv4 /\
  Types.Ipv6 = Types.factory Shape.Ipv6.
Proof. repeat split. Qed.

Lemma forced_bounds_return parameters :
  accepted parameters = true ->
  exists u v4 v6,
    Types.Uuid parameters = OK u /\
    Types.Ipv4 parameters = OK v4 /\
    Types.Ipv6 parameters = OK v6.
Proof.
  destruct as_factory as (-> & -> & ->).
  destruct parameters as [p|]; cbn [accepted]; intros A.
  - rewrite !factory_closed. cbn [closed]. rewrite A.
    do 3 eexists. repeat split.
  - do 3 eexists. repeat split.
Qed.

Lemma forced_bounds_raise parameters :
  accepted parameters = false ->
  Types.Uuid parameters = Throw AssertError /\
  Types.Ipv4 parameters = Throw AssertError /\
  Types.Ipv6 parameters = Throw AssertError.
Proof.
  destruct as_factory as (-> & -> & ->).
  destruct parameters as [p|]; cbn [accepted]; intros A; [|discriminate A].
  rewrite !factory_closed. cbn [closed]. rewrite A. repeat split.
Qed.

Lemma forced_bounds_of_returned parameters :
  (forall u, Types.Uuid parameters = OK u ->
             min_limits u = [Finite 36] /\ max_limits u = [Finite 36]) /\
  (forall v, Types.Ipv4 parameters = OK v ->
             min_limits v = [Finite 7] /\ max_limits v = [Finite 15]) /\
  (forall v, Types.Ipv6 parameters = OK v ->
             min_limits v = [Finite 3] /\ max_limits v = [Finite 45]).
Proof.
  split; [|split].
  - intros u H. unfold Types.Uuid in H. last_two_calls H.
    eapply bounds_override; eassumption.
  - intros v H. unfold Types.Ipv4 in H. last_two_calls H.
    eapply bounds_override; eassumption.
  - intros v H. unfold Types.Ipv6 in H. last_two_calls H.
    eapply bounds_override; eassumption.
Qed.

(** C2, as the code has it: the three factories look at the lengths of the
    configuration before they force their own.  When the configuration
    carries no length the builder rejects (each of [minLength] and
    [maxLength] is absent, falsy, or a non-negative safe integer), and
    when there is no configuration, the Uuid factory returns a node with
    exactly one lower and one upper length bound, 36 and 36, the Ipv4
    factory one with 7 and 15, the Ipv6 factory one with 3 and 45: the
    lengths of the caller are overridden.  For every other configuration
    the three factories raise, and there is no node. *)
Theorem forced_length_bounds parameters :
  if accepted parameters
  then exists u v4 v6,
         Types.Uuid parameters = OK u /\
         Types.Ipv4 parameters = OK v4 /\
         Types.Ipv6 parameters = OK v6 /\
         (min_limits u = [Finite 36] /\ max_limits u = [Finite 36]) /\
         (min_limits v4 = [Finite 7] /\ max_limits v4 = [Finite 15]) /\
         (min_limits v6 = [Finite 3] /\ max_limits v6 = [Finite 45])
  else Types.Uuid parameters = Throw AssertError /\
       Types.Ipv4 parameters = Throw AssertError /\
       Types.Ipv6 parameters = Throw AssertError.
Proof.
  destruct (accepted parameters) eqn:A.
  - destruct (forced_bounds_return parameters A) as (u & v4 & v6 & Hu & H4 & H6).
    destruct (forced_bounds_of_returned parameters) as (U & V4 & V6).
    exists u, v4, v6. repeat (split; [assumption|]).
    split; [exact (U _ Hu)|]. split; [exact (V4 _ H4)|exact (V6 _ H6)].
  - now apply forced_bounds_raise.
Qed.

Lemma forced_length_bounds_witness :
  exists u v4 v6,
    Types.Uuid (Some (set_minLength (Some (Finite 5))
                        (set_maxLength (Some (Finite 50)) no_params))) = OK u /\
    Types.Ipv4 (Some (set_minLength (Some (Finite 5))
                        (set_maxLength (Some (Finite 50)) no_params))) = OK v4 /\
    Types.Ipv6 (Some (set_minLength (Some (Finite 5))
                        (set_maxLength (Some (Finite 50)) no_params))) = OK v6 /\
    (min_limits u = [Finite 36] /\ max_limits u = [Finite 36]) /\
    (min_limits v4 = [Finite 7] /\ max_limits v4 = [Finite 15]) /\
    (min_limits v6 = [Finite 3] /\ max_limits v6 = [Finite 45]).
Proof.
  exact (forced_length_bounds
           (Some (set_minLength (Some (Finite 5))
                    (set_maxLength (Some (Finite 50)) no_params)))).
Defined.

(** The claim itself, "for every input configuration", fails on a length
    the builder rejects: with [minLength: -1] the call
    [Types.String(parameters)] raises inside each of the three factories,
    before any bound is forced. *)
Lemma rejected_length_leaves_no_node :
  accepted (Some (set_minLength (Some (Finite (-1))) no_params)) = false /\
  Types.Uuid (Some (set_minLength (Some (Finite (-1))) no_params)) =
    Throw AssertError /\
  Types.Ipv4 (Some (set_minLength (Some (Finite (-1))) no_params)) =
    Throw AssertError /\
  Types.Ipv6 (Some (set_minLength (Some (Finite (-1))) no_params)) =
    Throw AssertError.
Proof.
  assert (A : accepted (Some (set_minLength (Some (Finite (-1))) no_params)) = false)
    by (vm_compute; reflexivity).
  split; [exact A|]. exact (forced_bounds_raise _ A).
Qed.

(** * DateTime and Date *)

(** C3: for every configuration the DateTime factory returns a node with
    the ISO-date rule and the upper length bound 24 and nothing else as a
    rule; the node carries the description, requiredness and
    null-acceptance asked for, and neither a default nor an example.
    Putting any [default], [example], [minLength] or [maxLength] into a
    configuration does not change the result, and neither does any other
    field: the result is that of the record cut down to [description],
    [required] and [nullable]. *)
Theorem DateTime_honours_common_only p :
  (forall df ex mn mx,
     Types.DateTime
       (Some (set_default df (set_example ex (set_minLength mn (set_maxLength mx p)))))
     = Types.DateTime (Some p)) /\
  Types.DateTime (Some p) = Types.DateTime (Some (common_only p)) /\
  (exists n0, Types.DateTime None = OK n0 /\
              _rules n0 = [RisoDate; Rmax (Finite 24)]) /\
  exists n,
    Types.DateTime (Some p) = OK n /\
    _rules n = [RisoDate; Rmax (Finite 24)] /\
    flag_description (_flags n) = if_string (description p) /\
    requiredness n = option_map presence_of (required p) /\
    _valids n = null_valids (nullable p) /\
    flag_default (_flags n) = None /\
    terms_examples n = [].
Proof.
  split; [|split; [|split]].
  - intros. now rewrite !DateTime_closed.
  - now rewrite !DateTime_closed.
  - eexists. split; reflexivity.
  - rewrite DateTime_closed. eexists. repeat split.
Qed.

Lemma leb_length_lower a k :
  number_leb (Finite (inject_Z a)) (of_length k) = (a <=? Z.of_nat k)%Z.
Proof.
  unfold number_leb, of_length, Qle_bool. cbn. now rewrite !Z.mul_1_r.
Qed.

Lemma leb_length_upper a k :
  number_leb (of_length k) (Finite (inject_Z a)) = (Z.of_nat k <=? a)%Z.
Proof.
  unfold number_leb, of_length, Qle_bool. cbn. now rewrite !Z.mul_1_r.
Qed.


Lemma admits_between s lo hi k :
  min_limits s = [Finite (inject_Z lo)] ->
  max_limits s = [Finite (inject_Z hi)] ->
  admits_length s k = true <-> (lo <= Z.of_nat k <= hi)%Z.
Proof.
  intros L U. unfold admits_length. rewrite L, U. cbn [forallb].
  rewrite leb_length_lower, leb_length_upper, !andb_true_r, andb_true_iff,
    !Z.leb_le. reflexivity.
Qed.





(** * When a factory raises *)

(** C5, as the code has it: an enumeration factory does not raise when
    [values] is absent; it then does what it does for the same record with
    an empty [values], and raises exactly when the factory it is built on
    raises.  The Object factory does not raise for a record without
    [properties] either: it returns an object node that takes any key.
    The Array factory raises when [arrayType] is absent, and the five
    factories raise when called without any configuration.  Apart from
    that a factory raises exactly when the builder rejects an argument: a
    truthy [minLength] or [maxLength] (neither 0 nor [NaN]) that is not a
    non-negative safe integer, a [minValue] or [maxValue] that is [NaN],
    an enumeration value that is [undefined] or an array. *)
Theorem factories_raise_exactly_when shape parameters :
  is_ok (Types.factory shape parameters) = negb (raises shape parameters) /\
  (mandatory shape = true -> Types.factory shape None = Throw TypeError) /\
  (enumeration shape = true ->
   forall p, values p = None ->
     Types.factory shape (Some p) =
       Types.factory shape (Some (set_values (Some []) p)) /\
     is_ok (Types.factory shape (Some p)) =
       is_ok (Types.factory (base_of shape) (Some p))) /\
  (forall p, arrayType p = None -> Types.Array (Some p) = Throw AssertError) /\
  (forall p, properties p = None ->
     exists n, Types.Object (Some p) = OK n /\ terms_keys n = None).
Proof.
  split; [|split; [|split; [|split]]].
  - destruct parameters as [p|].
    + rewrite factory_closed. apply raises_closed.
    + rewrite factory_no_parameters. cbn [raises].
      destruct (mandatory shape) eqn:M; [reflexivity|].
      rewrite raises_closed. destruct shape; try discriminate M; reflexivity.
  - intros M. rewrite factory_no_parameters. now rewrite M.
  - intros E p V. rewrite !factory_closed, !raises_closed. split.
    + destruct shape; try discriminate E; cbn [closed]; rewrite V; reflexivity.
    + destruct shape; try discriminate E;
        cbn [raises base_of length_checked text_based numeric enumeration andb];
        rewrite V; cbn [given values_ok Joi.verifyFlat existsb forallb negb andb orb];
        now rewrite ?orb_false_r.
  - intros p A. change (Types.Array (Some p)) with (Types.factory Shape.Array (Some p)).
    rewrite factory_closed. cbn [closed]. now rewrite A.
  - intros p P. rewrite Object_closed. eexists. split; [reflexivity|]. exact P.
Qed.

Lemma factories_raise_exactly_when_witness :
  (mandatory Shape.Object = true /\
   Types.factory Shape.Object None = Throw TypeError) /\
  (enumeration Shape.IntegerEnum = true /\
   values (set_minValue (Some (Finite 3)) no_params) = None /\
   is_ok (Types.factory Shape.IntegerEnum
            (Some (set_minValue (Some (Finite 3)) no_params))) = true) /\
  (arrayType no_params = None /\ Types.Array (Some no_params) = Throw AssertError) /\
  (properties no_params = None /\
   exists n, Types.Object (Some no_params) = OK n /\ terms_keys n = None).
Proof.
  destruct (factories_raise_exactly_when Shape.IntegerEnum None) as (_ & _ & E & A & O).
  destruct (factories_raise_exactly_when Shape.Object None) as (_ & M & _).
  split; [|split; [|split]].
  - split; [reflexivity|]. exact (M eq_refl).
  - split; [reflexivity|]. split; [reflexivity|].
    rewrite (proj2 (E eq_refl (set_minValue (Some (Finite 3)) no_params) eq_refl)).
    vm_compute. reflexivity.
  - split; [reflexivity|]. exact (A no_params eq_refl).
  - split; [reflexivity|]. exact (O no_params eq_refl).
Defined.

(** C5 as the specification states it fails three times: the StringEnum
    factory returns a node for a record without [values], the Object
    factory returns a node for a record without [properties], and the
    String factory raises for a record whose [minLength] is [-1]. *)
Lemma claimed_errors_differ :
  (claimed_to_raise Shape.StringEnum (Some no_params) = true /\
   Types.factory Shape.StringEnum (Some no_params) = OK (base KString)) /\
  (claimed_to_raise Shape.Object (Some no_params) = true /\
   Types.factory Shape.Object (Some no_params) = OK (base KObject)) /\
  (claimed_to_raise Shape.String
     (Some (set_minLength (Some (Finite (-1))) no_params)) = false /\
   Types.factory Shape.String
     (Some (set_minLength (Some (Finite (-1))) no_params)) = Throw AssertError).
Proof.
  repeat split.
Qed.

(** * Absent fields *)

Ltac entry :=
  intros;
  repeat match goal with |- _ /\ _ => split end;
  unfold requiredness, min_limits, max_limits, other_rules, enum_node, tagged,
    text_node, date_node, number_node, boolean_node, object_node, array_node,
    null_valids, opt_list;
  cbn;
  repeat match goal with
         | E : _ = None |- _ => rewrite E
         end;
  cbn;
  repeat match goal with
         | |- context [match ?c with Some _ => _ | None => _ end] => destruct c
         end;
  reflexivity.




(** * The factories leave the store as it is *)

Section Store.
Import Heap(cell, Config, Node, heap, loc, M, extends, holds, sim, alloc, field, lift, ret, call).

Lemma extends_refl h : extends h h.
Proof. exists []. cbn. now rewrite app_nil_r. Qed.

Lemma extends_trans h1 h2 h3 : extends h1 h2 -> extends h2 h3 -> extends h1 h3.
Proof.
  intros [a ->] [b ->]. exists (a ++ b). now rewrite map_app, app_assoc.
Qed.

Lemma extends_keeps h h' l c :
  extends h h' -> nth_error h l = Some c -> nth_error h' l = Some c.
Proof.
  intros [a ->] N. rewrite nth_error_app1; [exact N|].
  apply nth_error_Some. now rewrite N.
Qed.

Lemma holds_extends fs h h' : holds fs h -> extends h h' -> holds fs h'.
Proof.
  intros F E l c I. eapply extends_keeps; [exact E | now apply F].
Qed.

Lemma holds_new fs h s :
  holds fs h -> holds ((length h, Node s) :: fs) (h ++ [Node s]).
Proof.
  intros F l c [[= <- <-] | I].
  - now rewrite nth_error_app2, Nat.sub_diag by lia.
  - eapply extends_keeps; [now exists [s] | now apply F].
Qed.

Lemma sim_bind fs (m : M loc) k r kp :
  sim fs m r ->
  (forall l s, sim ((l, Node s) :: fs) (k l) (kp s)) ->
  sim fs (Heap.bind m k) (x <- r ;; kp x).
Proof.
  intros Hm Hk h F. unfold Heap.bind. destruct (Hm h F) as [E R].
  destruct (m h) as [[l|e] h1]; cbn [fst snd] in *.
  - destruct r as [s|e]; [|discriminate R]. destruct R as (l0 & [= <-] & N).
    assert (F1 : holds ((l, Node s) :: fs) h1).
    { intros l' c [[= <- <-] | I]; [exact N|].
      eapply extends_keeps; [exact E | now apply F]. }
    destruct (Hk l s h1 F1) as [E1 R1]. split; [|exact R1].
    eapply extends_trans; eassumption.
  - destruct r as [s|e0]; [now destruct R as (l0 & [=] & _)|].
    split; [exact E | exact R].
Qed.

Lemma sim_alloc_then fs s k r :
  (forall l, sim ((l, Node s) :: fs) (k l) r) ->
  sim fs (Heap.bind (alloc s) k) r.
Proof.
  intros Hk h F. unfold Heap.bind, alloc.
  destruct (Hk (length h) (h ++ [Node s]) (holds_new fs h s F)) as [E R].
  split; [|exact R]. eapply extends_trans; [now exists [s] | exact E].
Qed.

Lemma sim_field_then {A : Type} fs (f : params -> A) r p k res :
  In (r, Config p) fs ->
  sim fs (k (f p)) res ->
  sim fs (Heap.bind (field f (Some r)) k) res.
Proof.
  intros I Hk h F. unfold Heap.bind, field. rewrite (F _ _ I). now apply Hk.
Qed.

Lemma sim_no_parameters {A : Type} fs (f : params -> A) k :
  sim fs (Heap.bind (field f None) k) (Throw TypeError).
Proof.
  intros h F. split; [apply extends_refl | reflexivity].
Qed.

Lemma sim_lift_then {A : Type} fs (r : result A) k kp :
  (forall a, sim fs (k a) (kp a)) ->
  sim fs (Heap.bind (lift r) k) (x <- r ;; kp x).
Proof.
  intros Hk h F. unfold Heap.bind, lift. destruct r as [a|e]; [now apply Hk|].
  split; [apply extends_refl | reflexivity].
Qed.

Lemma sim_ret fs l s : In (l, Node s) fs -> sim fs (ret l) (OK s).
Proof.
  intros I h F. split; [apply extends_refl|]. exists l. split; [reflexivity|].
  now apply F.
Qed.

Lemma sim_call fs m l s : In (l, Node s) fs -> sim fs (call m l) (m s).
Proof.
  intros I h F. unfold call. rewrite (F _ _ I).
  destruct (m s) as [s'|e]; [|split; [apply extends_refl | reflexivity]].
  split; [now exists [s']|]. exists (length h). split; [reflexivity|].
  cbn [snd alloc]. now rewrite nth_error_app2, Nat.sub_diag by lia.
Qed.

Lemma sim_when {A : Type} fs (c : option A) m l s :
  In (l, Node s) fs -> sim fs (Heap.when_ c m l) (when_ c m s).
Proof.
  intros I. destruct c as [x|]; [now apply sim_call | now apply sim_ret].
Qed.

End Store.

(** A cell known to be in the store. *)
Ltac fact := first [eassumption | left; reflexivity | right; fact].

Create HintDb store.

(** One statement of a factory after the other, on the store and without
    it. *)
Ltac statement :=
  first
    [ progress cbn [bind member]
    | apply sim_no_parameters
    | apply sim_ret; fact
    | apply sim_call; fact
    | eapply sim_bind; [solve [auto with store] | intros ? ?; cbv beta]
    | apply sim_alloc_then; intros ?
    | eapply sim_field_then; [fact | cbv beta]
    | apply sim_lift_then; intros ?
    | eapply sim_bind;
      [ first [apply sim_when; fact | apply sim_call; fact]
      | intros ? ?; cbv beta ] ].

Ltac statements K :=
  match type of K with
  | Heap.known _ ?parameters ?cfg =>
      destruct parameters as [?r|], cfg as [?p|]; try (now destruct K);
      pose proof K as K'; cbn [Heap.known] in K'; cbv zeta; repeat statement
  end.

Lemma String_sim fs parameters cfg :
  Heap.known fs parameters cfg ->
  Heap.sim fs (Heap.String parameters) (Types.String cfg).
Proof.
  intros K. unfold Heap.String, Types.String. statements K.
Qed.

Lemma Binary_sim fs parameters cfg :
  Heap.known fs parameters cfg ->
  Heap.sim fs (Heap.Binary parameters) (Types.Binary cfg).
Proof.
  intros K. unfold Heap.Binary, Types.Binary. statements K.
Qed.

Lemma DateTime_sim fs parameters cfg :
  Heap.known fs parameters cfg ->
  Heap.sim fs (Heap.DateTime parameters) (Types.DateTime cfg).
Proof.
  intros K. unfold Heap.DateTime, Types.DateTime. statements K.
Qed.

Lemma Number_sim fs parameters cfg :
  Heap.known fs parameters cfg ->
  Heap.sim fs (Heap.Number parameters) (Types.Number cfg).
Proof.
  intros K. unfold Heap.Number, Types.Number. statements K.
Qed.

Lemma Boolean_sim fs parameters cfg :
  Heap.known fs parameters cfg ->
  Heap.sim fs (Heap.Boolean parameters) (Types.Boolean cfg).
Proof.
  intros K. unfold Heap.Boolean, Types.Boolean. statements K.
Qed.

Lemma Object_sim fs parameters cfg :
  Heap.known fs parameters cfg ->
  Heap.sim fs (Heap.Object parameters) (Types.Object cfg).
Proof.
  intros K. unfold Heap.Object, Types.Object. statements K.
Qed.

Lemma Array_sim fs parameters cfg :
  Heap.known fs parameters cfg ->
  Heap.sim fs (Heap.Array parameters) (Types.Array cfg).
Proof.
  intros K. unfold Heap.Array, Types.Array. statements K.
Qed.

#[local] Hint Extern 1 (Heap.sim _ (Heap.String _) _) => apply String_sim : store.
#[local] Hint Extern 1 (Heap.sim _ (Heap.Binary _) _) => apply Binary_sim : store.
#[local] Hint Extern 1 (Heap.sim _ (Heap.DateTime _) _) => apply DateTime_sim : store.
#[local] Hint Extern 1 (Heap.sim _ (Heap.Number _) _) => apply Number_sim : store.

Lemma StringEnum_sim fs parameters cfg :
  Heap.known fs parameters cfg ->
  Heap.sim fs (Heap.StringEnum parameters) (Types.StringEnum cfg).
Proof.
  intros K. unfold Heap.StringEnum, Types.StringEnum. statements K.
Qed.

Lemma Email_sim fs parameters cfg :
  Heap.known fs parameters cfg ->
  Heap.sim fs (Heap.Email parameters) (Types.Email cfg).
Proof.
  intros K. unfold Heap.Email, Types.Email. statements K.
Qed.

Lemma Password_sim fs parameters cfg :
  Heap.known fs parameters cfg ->
  Heap.sim fs (Heap.Password parameters) (Types.Password cfg).
Proof.
  intros K. unfold Heap.Password, Types.Password. statements K.
Qed.

Lemma Uuid_sim fs parameters cfg :
  Heap.known fs parameters cfg ->
  Heap.sim fs (Heap.Uuid parameters) (Types.Uuid cfg).
Proof.
  intros K. unfold Heap.Uuid, Types.Uuid. statements K.
Qed.

Lemma Uri_sim fs parameters cfg :
  Heap.known fs parameters cfg ->
  Heap.sim fs (Heap.Uri parameters) (Types.Uri cfg).
Proof.
  intros K. unfold Heap.Uri, Types.Uri. statements K.
Qed.

Lemma Hostname_sim fs parameters cfg :
  Heap.known fs parameters cfg ->
  Heap.sim fs (Heap.Hostname parameters) (Types.Hostname cfg).
Proof.
  intros K. unfold Heap.Hostname, Types.Hostname. statements K.
Qed.

Lemma Ipv4_sim fs parameters cfg :
  Heap.known fs parameters cfg ->
  Heap.sim fs (Heap.Ipv4 parameters) (Types.Ipv4 cfg).
Proof.
  intros K. unfold Heap.Ipv4, Types.Ipv4. statements K.
Qed.

Lemma Ipv6_sim fs parameters cfg :
  Heap.known fs parameters cfg ->
  Heap.sim fs (Heap.Ipv6 parameters) (Types.Ipv6 cfg).
Proof.
  intros K. unfold Heap.Ipv6, Types.Ipv6. statements K.
Qed.

Lemma Byte_sim fs parameters cfg :
  Heap.known fs parameters cfg ->
  Heap.sim fs (Heap.Byte parameters) (Types.Byte cfg).
Proof.
  intros K. unfold Heap.Byte, Types.Byte. statements K.
Qed.

Lemma Date_sim fs parameters cfg :
  Heap.known fs parameters cfg ->
  Heap.sim fs (Heap.Date parameters) (Types.Date cfg).
Proof.
  intros K. unfold Heap.Date, Types.Date. statements K.
Qed.

Lemma NumberEnum_sim fs parameters cfg :
  Heap.known fs parameters cfg ->
  Heap.sim fs (Heap.NumberEnum parameters) (Types.NumberEnum cfg).
Proof.
  intros K. unfold Heap.NumberEnum, Types.NumberEnum. statements K.
Qed.

Lemma Integer_sim fs parameters cfg :
  Heap.known fs parameters cfg ->
  Heap.sim fs (Heap.Integer parameters) (Types.Integer cfg).
Proof.
  intros K. unfold Heap.Integer, Types.Integer. statements K.
Qed.

#[local] Hint Extern 1 (Heap.sim _ (Heap.Integer _) _) => apply Integer_sim : store.

Lemma IntegerEnum_sim fs parameters cfg :
  Heap.known fs parameters cfg ->
  Heap.sim fs (Heap.IntegerEnum parameters) (Types.IntegerEnum cfg).
Proof.
  intros K. unfold Heap.IntegerEnum, Types.IntegerEnum. statements K.
Qed.

Lemma factory_sim shape fs parameters cfg :
  Heap.known fs parameters cfg ->
  Heap.sim fs (Heap.factory shape parameters) (Types.factory shape cfg).
Proof.
  intros K. destruct shape; cbn [Heap.factory Types.factory].
  - now apply String_sim.
  - now apply StringEnum_sim.
  - now apply Email_sim.
  - now apply Password_sim.
  - now apply Uuid_sim.
  - now apply Uri_sim.
  - now apply Hostname_sim.
  - now apply Ipv4_sim.
  - now apply Ipv6_sim.
  - now apply Binary_sim.
  - now apply Byte_sim.
  - now apply DateTime_sim.
  - now apply Date_sim.
  - now apply Number_sim.
  - now apply NumberEnum_sim.
  - now apply Integer_sim.
  - now apply IntegerEnum_sim.
  - now apply Boolean_sim.
  - now apply Object_sim.
  - now apply Array_sim.
Qed.

Lemma factory_on_store shape h parameters cfg :
  Heap.refers h parameters cfg ->
  Heap.extends h (snd (Heap.factory shape parameters h)) /\
  Heap.outcome (Heap.factory shape parameters h) = Some (Types.factory shape cfg).
Proof.
  intros R.
  set (fs := match parameters, cfg with
             | Some r, Some p => [(r, Heap.Config p)]
             | _, _ => []
             end).
  assert (K : Heap.known fs parameters cfg).
  { destruct parameters, cfg; try contradiction; cbn; auto. }
  assert (F : Heap.holds fs h).
  { intros l c I. destruct parameters, cfg; try contradiction; cbn in I;
      intuition congruence. }
  destruct (factory_sim shape fs parameters cfg K h F) as [E O].
  split; [exact E|]. unfold Heap.outcome.
  destruct (Types.factory shape cfg) as [s|e].
  - destruct O as (l & -> & ->). reflexivity.
  - now rewrite O.
Qed.

(** C7: a factory called on a store, with no argument or with a reference
    to a configuration record, leaves every cell of the store as it is,
    the record it was passed among them; the store it leaves is the old
    one with new nodes after it, the returned node and the nodes the
    builder made on the way, and nothing else.  What the caller gets, the
    error or the content of the node, is what the factory computes from
    the content of the record alone: so two calls on records with the same
    fields give the same, whatever the stores they run on and wherever the
    records are, the second call after the first included. *)
Theorem factories_are_pure shape h parameters cfg :
  Heap.refers h parameters cfg ->
  (forall l c, nth_error h l = Some c ->
     nth_error (snd (Heap.factory shape parameters h)) l = Some c) /\
  (exists nodes,
     snd (Heap.factory shape parameters h) = h ++ map Heap.Node nodes) /\
  Heap.outcome (Heap.factory shape parameters h) = Some (Types.factory shape cfg) /\
  Heap.refers (snd (Heap.factory shape parameters h)) parameters cfg /\
  (forall h' parameters',
     Heap.refers h' parameters' cfg ->
     Heap.outcome (Heap.factory shape parameters' h') =
     Heap.outcome (Heap.factory shape parameters h)).
Proof.
  intros R. destruct (factory_on_store shape h parameters cfg R) as [E O].
  split; [|split; [|split; [|split]]].
  - intros l c N. eapply extends_keeps; eassumption.
  - exact E.
  - exact O.
  - destruct parameters, cfg; try contradiction; [|exact I].
    eapply extends_keeps; eassumption.
  - intros h' parameters' R'.
    destruct (factory_on_store shape h' parameters' cfg R') as [_ O'].
    now rewrite O, O'.
Qed.

Lemma factories_are_pure_witness :
  Heap.refers [Heap.Config (set_required (Some true) no_params)] (Some 0%nat)
    (Some (set_required (Some true) no_params)) /\
  snd (Heap.factory Shape.Email (Some 0%nat)
         [Heap.Config (set_required (Some true) no_params)]) =
    [Heap.Config (set_required (Some true) no_params);
     Heap.Node (base KString);
     Heap.Node (with_flags (put_presence Required no_flags) (base KString));
     Heap.Node (with_rules [Remail]
                  (with_flags (put_presence Required no_flags) (base KString)))] /\
  Heap.outcome (Heap.factory Shape.Email (Some 0%nat)
                  [Heap.Config (set_required (Some true) no_params)]) =
    Some (Types.Email (Some (set_required (Some true) no_params))).
Proof.
  assert (R : Heap.refers [Heap.Config (set_required (Some true) no_params)]
                (Some 0%nat) (Some (set_required (Some true) no_params)))
    by reflexivity.
  split; [exact R|]. split; [vm_compute; reflexivity|].
  exact (proj1 (proj2 (proj2 (factories_are_pure Shape.Email _ _ _ R)))).
Defined.

(** What the store would show of a factory that assigned to a field of its
    configuration: the cell of the record changed. *)
Lemma an_assignment_changes_the_store :
  snd (Heap.assign 0%nat (Heap.Config (set_required (Some true) no_params))
         [Heap.Config no_params]) =
    [Heap.Config (set_required (Some true) no_params)].
Proof.
  reflexivity.
Qed.

(** * Results depend on what a factory reads, and on nothing else *)

(** X11: the result of a factory, node or error, depends on no more of
    the configuration than the fields the factory reads: two
    configurations that agree on these fields give identical results.  So
    a [default] or a length on a Date, a [minValue] on a String, or
    [values] on a factory that is no enumeration never show. *)
Theorem results_depend_on_fields_read shape p q :
  relevant shape p = relevant shape q ->
  Types.factory shape (Some p) = Types.factory shape (Some q).
Proof.
  intros R.
  assert (F : forall r, Types.factory shape (Some r) =
                        Types.factory shape (Some (relevant shape r))).
  { intros r. rewrite !factory_closed. destruct shape; reflexivity. }
  now rewrite (F p), (F q), R.
Qed.

Lemma results_depend_on_fields_read_witness :
  let p := set_default (Some (Str "2020-01-01")) no_params in
  let q := set_minLength (Some (Finite 5)) no_params in
  p <> q /\
  relevant Shape.Date p = relevant Shape.Date q /\
  Types.factory Shape.Date (Some p) = Types.factory Shape.Date (Some q).
Proof.
  intros p q. split; [discriminate|]. split; [reflexivity|].
  apply (results_depend_on_fields_read Shape.Date p q). reflexivity.
Defined.

(** * Bounds, defaults and examples: by type or by truthiness *)

(** C8: for Number and Integer (and the enumerations built on them) the
    node carries a lower bound exactly when [minValue] is a number, and
    then that number, be it zero or negative, and the same for [maxValue]
    and the upper bound; the factory returns a node unless a bound is
    [NaN], which the builder rejects. *)
Theorem numeric_bounds_by_type shape p :
  numeric shape = true ->
  (forall n, Types.factory shape (Some p) = OK n ->
             min_limits n = opt_list (minValue p) /\
             max_limits n = opt_list (maxValue p)) /\
  (forall n x, Types.factory shape (Some (set_minValue (Some x) p)) = OK n ->
               min_limits n = [x]) /\
  (forall n x, Types.factory shape (Some (set_maxValue (Some x) p)) = OK n ->
               max_limits n = [x]) /\
  (enumeration shape = false ->
   is_ok (Types.factory shape (Some p)) = numbers_ok p).
Proof.
  intros N.
  assert (G : forall r n, Types.factory shape (Some r) = OK n ->
                          min_limits n = opt_list (minValue r) /\
                          max_limits n = opt_list (maxValue r)).
  { intros r n H. rewrite factory_closed in H.
    destruct shape; try discriminate N;
      unfold closed, guard, enum_closed in H; crack H;
      unfold min_limits, max_limits, enum_node, number_node, opt_list; cbn;
      destruct (minValue r), (maxValue r); split; reflexivity. }
  split; [exact (G p)|]. split; [|split].
  - intros n x H. now destruct (G _ _ H).
  - intros n x H. now destruct (G _ _ H).
  - intros E. rewrite factory_closed.
    destruct shape; try discriminate N; try discriminate E;
      unfold closed, guard; destruct (numbers_ok p); reflexivity.
Qed.

Lemma numeric_bounds_by_type_witness :
  let p := set_minValue (Some (Finite 0)) (set_maxValue (Some (Finite (-5))) no_params) in
  numeric Shape.Integer = true /\
  exists n,
    Types.factory Shape.Integer (Some p) = OK n /\
    min_limits n = [Finite 0] /\
    max_limits n = [Finite (-5)].
Proof.
  intros p. split; [reflexivity|].
  assert (H : Types.factory Shape.Integer (Some p) =
              OK (with_rules (_rules (number_node p) ++ [Rinteger]) (number_node p)))
    by (vm_compute; reflexivity).
  eexists. split; [exact H|].
  exact (proj1 (numeric_bounds_by_type Shape.Integer p eq_refl) _ H).
Defined.

(** C9: for String and every shape built on it, for Binary (and for Byte
    and Array, which read the same fields the same way), a configuration
    with [minLength: 0], with [maxLength: 0], with an empty description or
    with an empty-string default gives the result of the configuration
    without that field. *)
Theorem falsy_fields_are_dropped shape p :
  length_checked shape = true ->
  Types.factory shape (Some (set_minLength (Some (Finite 0)) p)) =
    Types.factory shape (Some (set_minLength None p)) /\
  Types.factory shape (Some (set_maxLength (Some (Finite 0)) p)) =
    Types.factory shape (Some (set_maxLength None p)) /\
  Types.factory shape (Some (set_description (Some "") p)) =
    Types.factory shape (Some (set_description None p)) /\
  Types.factory shape (Some (set_default (Some (Str "")) p)) =
    Types.factory shape (Some (set_default None p)).
Proof.
  intros L. rewrite !factory_closed.
  destruct shape; try discriminate L; repeat split.
Qed.

Lemma falsy_fields_are_dropped_witness :
  let p := set_maxLength (Some (Finite 8)) no_params in
  length_checked Shape.Binary = true /\
  Types.factory Shape.Binary (Some (set_minLength (Some (Finite 0)) p)) =
    Types.factory Shape.Binary (Some p) /\
  Types.factory Shape.Binary (Some (set_description (Some "") p)) =
    Types.factory Shape.Binary (Some p).
Proof.
  intros p. split; [reflexivity|].
  destruct (falsy_fields_are_dropped Shape.Binary p eq_refl) as (A & _ & B & _).
  split; [exact A|exact B].
Defined.

(** C10: the Boolean factory puts a default [false] and an example [false]
    on the node, and so do Number and Integer with a default [0] and an
    example [0] (a boolean, or a number, is taken whatever its truth
    value); String, Object and Array drop a default or an example that is
    falsy: their result is that of the configuration without it. *)
Theorem falsy_defaults_by_shape p :
  (exists n,
     Types.Boolean (Some (set_default (Some (Bool false)) (set_example (Some (Bool false)) p)))
       = OK n /\
     flag_default (_flags n) = Some (Bool false) /\
     terms_examples n = [Bool false]) /\
  (forall shape n,
     shape = Shape.Number \/ shape = Shape.Integer ->
     Types.factory shape
       (Some (set_default (Some (Num (Finite 0))) (set_example (Some (Num (Finite 0))) p)))
       = OK n ->
     flag_default (_flags n) = Some (Num (Finite 0)) /\
     terms_examples n = [Num (Finite 0)]) /\
  (forall shape,
     shape = Shape.Number \/ shape = Shape.Integer ->
     is_ok (Types.factory shape
              (Some (set_default (Some (Num (Finite 0)))
                       (set_example (Some (Num (Finite 0))) p))))
     = numbers_ok p) /\
  (forall shape v,
     shape = Shape.String \/ shape = Shape.Object \/ shape = Shape.Array ->
     truthy v = false ->
     Types.factory shape (Some (set_default (Some v) p)) =
       Types.factory shape (Some (set_default None p)) /\
     Types.factory shape (Some (set_example (Some v) p)) =
       Types.factory shape (Some (set_example None p))).
Proof.
  split; [|split; [|split]].
  - change Types.Boolean with (Types.factory Shape.Boolean).
    rewrite factory_closed. eexists. repeat split.
  - intros shape n S H. rewrite factory_closed in H.
    destruct S as [-> | ->]; unfold closed, guard in H; crack H; split; reflexivity.
  - intros shape S. rewrite factory_closed.
    destruct S as [-> | ->]; unfold closed, guard, numbers_ok; cbn;
      destruct (number_ok (minValue p) && number_ok (maxValue p)); reflexivity.
  - intros shape v S T. rewrite !factory_closed.
    destruct S as [-> | [-> | ->]]; unfold closed, guard, lengths_ok, text_node,
      object_node, array_node, set_default, set_example; cbn; rewrite T;
      split; reflexivity.
Qed.

Lemma falsy_defaults_by_shape_example :
  (exists n,
     Types.Number (Some (set_default (Some (Num (Finite 0))) no_params)) = OK n /\
     flag_default (_flags n) = Some (Num (Finite 0))) /\
  (exists n,
     Types.String (Some (set_default (Some (Str "")) no_params)) = OK n /\
     flag_default (_flags n) = None) /\
  (exists n,
     Types.Object (Some (set_example (Some Null) no_params)) = OK n /\
     terms_examples n = []).
Proof.
  repeat split; eexists; split; reflexivity.
Qed.

(** * Further properties of the factories *)

Lemma limits_closed shape p n :
  Types.factory shape (Some p) = OK n ->
  min_limits n = lower_limits shape p /\ max_limits n = upper_limits shape p.
Proof.
  intros H. rewrite factory_closed in H.
  destruct shape; unfold closed, guard, enum_closed in H; crack H;
    unfold lower_limits, upper_limits; entry.
Qed.


(** ** Null-acceptance *)

Lemma collect_keeps vs : forall init x, In x init -> In x (collect vs init).
Proof.
  induction vs as [|v vs IH]; intros init x I; [exact I|].
  cbn. apply IH. unfold Joi.values_add.
  destruct (existsb _ init); [exact I | apply in_or_app; now left].
Qed.

Lemma collect_from vs : forall init x,
  In x (collect vs init) -> In x init \/ In x vs.
Proof.
  induction vs as [|v vs IH]; intros init x I; [now left|].
  cbn in I. apply IH in I as [I | I]; [|right; now right].
  unfold Joi.values_add in I. destruct (existsb _ init); [now left|].
  apply in_app_or in I as [I | [<- | []]]; [now left | right; now left].
Qed.

Lemma valids_closed shape p n :
  Types.factory shape (Some p) = OK n ->
  _valids n =
    if enumeration shape
    then collect (given (values p)) (null_valids (nullable p))
    else null_valids (nullable p).
Proof.
  intros H. rewrite factory_closed in H.
  destruct shape; unfold closed, guard, enum_closed in H; cbn [enumeration];
    crack H; reflexivity.
Qed.

(** X1: [nullable: false] gives the result of the configuration without
    [nullable], for every factory.  With [nullable: true] a returned node
    has null among its allowed values.  Without it a returned node has no
    allowed value at all, unless the factory is an enumeration, and then
    null is allowed only when it is one of the [values]. *)
Theorem null_acceptance shape p :
  Types.factory shape (Some (set_nullable (Some false) p)) =
    Types.factory shape (Some (set_nullable None p)) /\
  (forall n, Types.factory shape (Some (set_nullable (Some true) p)) = OK n ->
             In Null (_valids n)) /\
  (forall b n, b <> Some true ->
               Types.factory shape (Some (set_nullable b p)) = OK n ->
               (enumeration shape = false -> _valids n = []) /\
               (forall vs, values p = Some vs -> In Null (_valids n) -> In Null vs)).
Proof.
  split; [|split].
  - rewrite !factory_closed. destruct shape; reflexivity.
  - intros n H. rewrite (valids_closed _ _ _ H). cbn [nullable values set_nullable].
    assert (N : In Null (null_valids (Some true))) by (now left).
    destruct (enumeration shape); [|exact N].
    now apply collect_keeps.
  - intros b n B H. rewrite (valids_closed _ _ _ H). cbn [nullable values set_nullable].
    assert (N : null_valids b = [])
      by (destruct b as [[|]|]; first [reflexivity | now elim B]).
    rewrite N. split.
    + now intros ->.
    + intros vs V. rewrite V. cbn [given]. destruct (enumeration shape); [|intros []].
      intros I. now apply collect_from in I as [[] | I].
Qed.

(** ** Bounds *)

Lemma no_parameters_as_empty shape n :
  Types.factory shape None = OK n ->
  Types.factory shape (Some no_params) = OK n.
Proof.
  rewrite factory_no_parameters, factory_closed.
  destruct (mandatory shape); [discriminate | trivial].
Qed.

(** X2: for String, StringEnum, Email, Password, Uri, Hostname, Binary,
    Byte and Array, a [minLength] that is not falsy is the one lower bound
    of the returned node, unchanged, and a [maxLength] that is not falsy
    the one upper bound; with the field absent the node has no such
    bound. *)
Theorem plain_length_bounds shape p n :
  plain_lengths shape = true ->
  Types.factory shape (Some p) = OK n ->
  (forall x, minLength p = Some x -> truthy_number x = true -> min_limits n = [x]) /\
  (forall x, maxLength p = Some x -> truthy_number x = true -> max_limits n = [x]) /\
  (minLength p = None -> min_limits n = []) /\
  (maxLength p = None -> max_limits n = []).
Proof.
  intros P H. destruct (limits_closed _ _ _ H) as [L U]. rewrite L, U.
  destruct shape; try discriminate P; cbn [lower_limits upper_limits];
    unfold if_number; repeat split;
    try (intros x -> T; now rewrite T);
    try (now intros ->).
Qed.

Lemma plain_length_bounds_witness :
  let p := set_minLength (Some (Finite 2)) (set_maxLength (Some (Finite 64)) no_params) in
  exists n,
    Types.factory Shape.Password (Some p) = OK n /\
    min_limits n = [Finite 2] /\
    max_limits n = [Finite 64].
Proof.
  intros p.
  assert (H : Types.factory Shape.Password (Some p) =
              OK (tagged "password" (text_node KString p))) by (vm_compute; reflexivity).
  eexists. split; [exact H|].
  destruct (plain_length_bounds Shape.Password p _ eq_refl H) as (L & U & _).
  split; [exact (L _ eq_refl eq_refl) | exact (U _ eq_refl eq_refl)].
Defined.





Lemma Qred_inject_Z z : Qred (inject_Z z) = inject_Z z.
Proof.
  unfold Qred, inject_Z.
  pose proof (Z.ggcd_gcd z 1) as G.
  pose proof (Z.ggcd_correct_divisors z 1) as D.
  destruct (Z.ggcd z 1) as [g [a b]]. cbn [fst snd] in *.
  rewrite Z.gcd_1_r in G. subst g. rewrite !Z.mul_1_l in D.
  destruct D as [<- <-]. reflexivity.
Qed.

Lemma limit_of_integer z :
  (0 <= z <= 2 ^ 53 - 1)%Z -> Joi.limit (Finite (inject_Z z)) = true.
Proof.
  intros B. unfold Joi.limit, Joi.isSafeInteger. rewrite Qred_inject_Z.
  cbn [inject_Z Qnum Qden]. rewrite Pos.eqb_refl. cbn [andb].
  apply andb_true_iff. split; apply Z.leb_le; lia.
Qed.

(** X4: the factories do not compare the two lengths.  For String,
    StringEnum, Email, Password, Uri, Hostname, Binary, Byte and Array,
    take a configuration the factory returns a node for once the two
    lengths are removed.  With a [maxLength] that is a positive integer
    and a larger [minLength] (a safe integer) the factory still returns a
    node, and the bounds of that node admit no length at all. *)
Theorem crossed_lengths_admit_nothing shape p lo hi :
  plain_lengths shape = true ->
  minLength p = Some (Finite (inject_Z lo)) ->
  maxLength p = Some (Finite (inject_Z hi)) ->
  (0 < hi < lo)%Z ->
  (lo <= 2 ^ 53 - 1)%Z ->
  is_ok (Types.factory shape (Some (set_minLength None (set_maxLength None p)))) = true ->
  exists n,
    Types.factory shape (Some p) = OK n /\
    forall k, admits_length n k = false.
Proof.
  intros P Lo Hi O B R.
  assert (TL : truthy_number (Finite (inject_Z lo)) = true).
  { unfold truthy_number. cbn. apply negb_true_iff, Z.eqb_neq. lia. }
  assert (TU : truthy_number (Finite (inject_Z hi)) = true).
  { unfold truthy_number. cbn. apply negb_true_iff, Z.eqb_neq. lia. }
  assert (K : lengths_ok p = true).
  { unfold lengths_ok, length_ok, if_number. rewrite Lo, Hi, TL, TU.
    rewrite !limit_of_integer by lia. reflexivity. }
  assert (S : is_ok (Types.factory shape (Some p)) = true).
  { rewrite factory_closed, raises_closed in *. rewrite <- R. apply f_equal.
    cbn [raises]. rewrite K. reflexivity. }
  apply is_ok_returns in S as [n H]. exists n. split; [exact H|]. intros k.
  destruct (limits_closed _ _ _ H) as [L U].
  assert (L' : min_limits n = [Finite (inject_Z lo)]).
  { rewrite L. destruct shape; try discriminate P; cbn [lower_limits];
      unfold if_number; now rewrite Lo, TL. }
  assert (U' : max_limits n = [Finite (inject_Z hi)]).
  { rewrite U. destruct shape; try discriminate P; cbn [upper_limits];
      unfold if_number; now rewrite Hi, TU. }
  destruct (admits_length n k) eqn:A; [|reflexivity].
  apply (admits_between n lo hi k L' U') in A. lia.
Qed.

Lemma crossed_lengths_admit_nothing_witness :
  exists n,
    Types.String (Some (set_minLength (Some (Finite 5))
                          (set_maxLength (Some (Finite 3)) no_params))) = OK n /\
    forall k, admits_length n k = false.
Proof.
  apply (crossed_lengths_admit_nothing Shape.String
           (set_minLength (Some (Finite 5))
              (set_maxLength (Some (Finite 3)) no_params)) 5 3);
    [reflexivity | reflexivity | reflexivity | lia | lia | vm_compute; reflexivity].
Defined.

(** ** Description, default and example *)

Ltac option_given :=
  intros;
  unfold enum_node, tagged, text_node, date_node, number_node, boolean_node,
    object_node, array_node, kept, if_string, if_value, typeof_number,
    typeof_boolean, opt_list;
  cbn;
  repeat match goal with
         | E : _ = Some _ |- _ => rewrite E
         end;
  cbn;
  try match goal with
      | D : ?d <> "" |- _ => destruct d; [now elim D | reflexivity]
      end;
  try match goal with
      | v : value |- _ => destruct v; cbn; try reflexivity
      end;
  repeat match goal with
         | |- context [if ?c then _ else _] => destruct c
         end;
  reflexivity.

(** X5: on every node a factory returns, a description that is not empty
    is the description of the node, unchanged.  A default is the default
    of the node, unchanged, when it passes the test its shape puts before
    the call (truthy for String and what is built on it, Binary, Byte,
    Object and Array; a number for the numeric shapes; a boolean for
    Boolean) and leaves no default otherwise, and never on DateTime and
    Date.  The same holds for the example, of which a node has at most
    one. *)
Theorem options_pass_through shape p n :
  Types.factory shape (Some p) = OK n ->
  (forall d, description p = Some d -> d <> "" ->
             flag_description (_flags n) = Some d) /\
  (forall v, default p = Some v ->
             flag_default (_flags n) = if kept shape v then Some v else None) /\
  (forall v, example p = Some v ->
             terms_examples n = if kept shape v then [v] else []).
Proof.
  intros H. rewrite factory_closed in H.
  destruct shape; unfold closed, guard, enum_closed in H; crack H;
    (split; [|split]); option_given.
Qed.

Lemma options_pass_through_witness :
  let p := set_description (Some "port")
             (set_default (Some (Str "80")) (set_example (Some (Num (Finite 0))) no_params)) in
  exists n,
    Types.factory Shape.Integer (Some p) = OK n /\
    flag_description (_flags n) = Some "port" /\
    flag_default (_flags n) = None /\
    terms_examples n = [Num (Finite 0)].
Proof.
  intros p.
  assert (H : Types.factory Shape.Integer (Some p) =
              OK (with_rules (_rules (number_node p) ++ [Rinteger]) (number_node p)))
    by (vm_compute; reflexivity).
  eexists. split; [exact H|].
  destruct (options_pass_through Shape.Integer p _ H) as (D & F & E).
  split; [apply (D "port" eq_refl); discriminate|].
  split; [exact (F _ eq_refl) | exact (E _ eq_refl)].
Defined.

(** ** Enumerations *)

Lemma primitive_refl v : primitive v = true -> value_eqb v v = true.
Proof.
  destruct v as [| |b|x|s|l|l]; cbn; try discriminate; intros _.
  - reflexivity.
  - apply Bool.eqb_reflx.
  - destruct x as [|b|q]; cbn;
      [reflexivity | apply Bool.eqb_reflx | apply Qeq_bool_iff, Qeq_refl].
  - apply String.eqb_refl.
Qed.

Lemma represented_keeps f vs : forall init,
  existsb f init = true -> existsb f (collect vs init) = true.
Proof.
  induction vs as [|v vs IH]; intros init E; [exact E|].
  cbn. apply IH. unfold Joi.values_add.
  destruct (existsb (fun item => value_eqb item v) init); [exact E|].
  rewrite existsb_app, E. reflexivity.
Qed.

Lemma collect_represents vs : forall init v,
  In v vs -> value_eqb v v = true ->
  existsb (fun item => value_eqb item v) (collect vs init) = true.
Proof.
  induction vs as [|w vs IH]; intros init v I R; [destruct I|].
  destruct I as [-> | I]; [|now apply IH].
  cbn. apply represented_keeps. unfold Joi.values_add.
  destruct (existsb (fun item => value_eqb item v) init) eqn:E; [exact E|].
  rewrite existsb_app. cbn. now rewrite R, orb_true_r.
Qed.

Lemma collect_nonempty vs init : vs <> [] -> collect vs init <> [].
Proof.
  destruct vs as [|v vs]; [congruence|]. intros _ C.
  assert (I : exists x, In x (Joi.values_add v init)).
  { unfold Joi.values_add. destruct init as [|i init].
    - exists v. now left.
    - exists i. destruct (existsb _ (i :: init)); now left. }
  destruct I as [x I]. apply (collect_keeps vs) in I.
  change (collect vs (Joi.values_add v init) = []) in C. now rewrite C in I.
Qed.

Lemma only_closed shape p n :
  enumeration shape = true ->
  Types.factory shape (Some p) = OK n ->
  flag_only (_flags n) = match _valids n with [] => false | _ => true end.
Proof.
  intros E H. rewrite factory_closed in H.
  destruct shape; try discriminate E;
    unfold closed, guard, enum_closed in H; crack H; reflexivity.
Qed.

(** X6: on the node an enumeration factory returns, every allowed value
    is one of the [values], or is null when [nullable] is true; every one
    of the [values] that is a string, a number, a boolean or null is
    allowed; and the node accepts nothing but its allowed values exactly
    when it has one, which it has as soon as [values] is not empty. *)
Theorem enum_allowed_values shape p vs n :
  enumeration shape = true ->
  values p = Some vs ->
  Types.factory shape (Some p) = OK n ->
  (forall x, In x (_valids n) ->
             In x vs \/ (x = Null /\ nullable p = Some true)) /\
  (forall v, In v vs -> primitive v = true ->
             existsb (fun item => value_eqb item v) (_valids n) = true) /\
  (vs <> [] -> flag_only (_flags n) = true) /\
  (flag_only (_flags n) = true <-> _valids n <> []).
Proof.
  intros E V H.
  pose proof (valids_closed _ _ _ H) as C. rewrite E, V in C. cbn [given] in C.
  pose proof (only_closed _ _ _ E H) as O.
  split; [|split; [|split]].
  - intros x I. rewrite C in I. apply collect_from in I as [I | I]; [|now left].
    right. unfold null_valids in I.
    destruct (nullable p) as [[|]|]; cbn in I; intuition.
  - intros v I P. rewrite C. now apply collect_represents, primitive_refl.
  - intros N. rewrite O. pose proof (collect_nonempty vs (null_valids (nullable p)) N).
    rewrite <- C in *. now destruct (_valids n).
  - rewrite O. destruct (_valids n); split; congruence.
Qed.

Lemma enum_allowed_values_witness :
  let vs := [Str "asc"; Str "desc"; Str "asc"] in
  let p := {| description := None; required := None; nullable := Some true;
              default := None; example := None; minLength := None;
              maxLength := None; minValue := None; maxValue := None;
              values := Some vs; properties := None; arrayType := None |} in
  exists n,
    Types.factory Shape.StringEnum (Some p) = OK n /\
    _valids n = [Null; Str "asc"; Str "desc"] /\
    flag_only (_flags n) = true /\
    existsb (fun item => value_eqb item (Str "desc")) (_valids n) = true.
Proof.
  intros vs p.
  assert (H : Types.factory Shape.StringEnum (Some p) =
              OK (enum_node vs (text_node KString p))) by (vm_compute; reflexivity).
  eexists. split; [exact H|]. split; [reflexivity|].
  destruct (enum_allowed_values Shape.StringEnum p vs _ eq_refl eq_refl H)
    as (_ & R & O & _).
  split; [apply O; discriminate|].
  apply R; [right; now left | reflexivity].
Defined.

(** X7: an enumeration factory does not ask for a value.  With an empty
    [values] and [nullable] not true it returns exactly what the factory
    it is built on returns for the same configuration, a node with no
    restriction to allowed values; with [nullable: true] it returns a node
    that accepts null and nothing else. *)
Theorem empty_enumeration shape p :
  enumeration shape = true ->
  values p = Some [] ->
  (nullable p <> Some true ->
   Types.factory shape (Some p) = Types.factory (base_of shape) (Some p)) /\
  (nullable p = Some true ->
   forall n, Types.factory shape (Some p) = OK n ->
             _valids n = [Null] /\ flag_only (_flags n) = true).
Proof.
  intros E V. split.
  - intros N. rewrite !factory_closed.
    assert (Z : null_valids (nullable p) = [])
      by (destruct (nullable p) as [[|]|]; first [reflexivity | now elim N]).
    destruct shape; try discriminate E; cbn [closed base_of]; rewrite V;
      unfold guard, enum_closed, enum_node, text_node, number_node; cbn;
      rewrite Z; reflexivity.
  - intros N n H.
    pose proof (valids_closed _ _ _ H) as C. rewrite E, V, N in C. cbn [given] in C.
    rewrite (only_closed _ _ _ E H), C. split; reflexivity.
Qed.

Lemma empty_enumeration_witness :
  let p := {| description := None; required := None; nullable := None;
              default := None; example := None; minLength := None;
              maxLength := None; minValue := None; maxValue := None;
              values := Some []; properties := None; arrayType := None |} in
  Types.factory Shape.IntegerEnum (Some p) = Types.factory Shape.Integer (Some p) /\
  exists n, Types.factory Shape.IntegerEnum (Some p) = OK n /\
            flag_only (_flags n) = false.
Proof.
  intros p.
  destruct (empty_enumeration Shape.IntegerEnum p eq_refl eq_refl) as [B _].
  split; [apply B; discriminate|].
  eexists. split; reflexivity.
Defined.

(** ** What the nodes accept *)

Lemma value_eqb_Str w v : value_eqb w (Str v) = true <-> w = Str v.
Proof.
  split.
  - destruct w; cbn; try discriminate. intros E. now apply String.eqb_eq in E as ->.
  - intros ->. apply String.eqb_refl.
Qed.

Lemma collect_accepts v vs : forall init,
  existsb (fun a => value_eqb a (Str v)) (collect vs init) =
  existsb (fun a => value_eqb a (Str v)) init
  || existsb (fun a => value_eqb a (Str v)) vs.
Proof.
  induction vs as [|w vs IH]; intros init; [now rewrite orb_false_r|].
  change (collect (w :: vs) init) with (collect vs (Joi.values_add w init)).
  rewrite IH. cbn [existsb]. rewrite orb_assoc. f_equal.
  unfold Joi.values_add.
  destruct (existsb (fun item => value_eqb item w) init) eqn:E.
  - destruct (value_eqb w (Str v)) eqn:W; [|now rewrite orb_false_r].
    apply value_eqb_Str in W. subst w. now rewrite E.
  - rewrite existsb_app. cbn [existsb]. now rewrite orb_false_r.
Qed.

Lemma accepts_member v vs :
  existsb (fun a => value_eqb a (Str v)) vs = true <-> In (Str v) vs.
Proof.
  rewrite existsb_exists. split.
  - intros (w & I & E). apply value_eqb_Str in E. now subst w.
  - intros I. exists (Str v). split; [exact I | now apply value_eqb_Str].
Qed.

Lemma plain_text_is_not_converted iso_form convert p extra v :
  (forall r, In r extra -> rule_name r <> "isoDate") ->
  forall s, _rules s = _rules (text_node KString p) ++ extra ->
  coerced iso_form convert s v = v.
Proof.
  intros X s R. unfold coerced, has_rule. rewrite R.
  assert (N : existsb (fun r => String.eqb (rule_name r) "isoDate")
                (_rules (text_node KString p) ++ extra) = false).
  { rewrite existsb_app. apply orb_false_iff. split.
    - cbn [text_node _rules].
      destruct (if_number (minLength p)), (if_number (maxLength p)); reflexivity.
    - destruct (existsb _ extra) eqn:E; [|reflexivity].
      apply existsb_exists in E as (r & I & E). apply String.eqb_eq in E.
      now elim (X r I). }
  rewrite N. now rewrite andb_false_r.
Qed.

(** X12: what a node of the StringEnum factory accepts.  For a
    configuration with at least one value, on which the factory does not
    raise, the factory returns a node, and the engine accepts a string
    exactly when it is one of the [values], whatever [minLength],
    [maxLength] and [nullable] say: a member shorter than [minLength] is
    accepted, and nothing else is. *)
Theorem enum_accepts_its_values p vs :
  values p = Some vs ->
  vs <> [] ->
  raises Shape.StringEnum (Some p) = false ->
  exists n,
    Types.StringEnum (Some p) = OK n /\
    forall well_formed iso_form convert v,
      exists b,
        validate well_formed iso_form convert n v = Some b /\
        (b = true <-> In (Str v) vs).
Proof.
  intros V N R.
  assert (H : is_ok (Types.factory Shape.StringEnum (Some p)) = true)
    by (now rewrite factory_closed, raises_closed, R).
  apply is_ok_returns in H as [n H]. exists n. split; [exact H|].
  pose proof (valids_closed _ _ _ H) as C. cbn [enumeration] in C.
  rewrite V in C. cbn [given] in C.
  pose proof (only_closed Shape.StringEnum p n eq_refl H) as O.
  assert (T : type n = KString /\ _rules n = _rules (text_node KString p) ++ []).
  { rewrite factory_closed in H. unfold closed, enum_closed in H. crack H.
    split; [reflexivity | now rewrite app_nil_r]. }
  destruct T as [T Ru].
  intros well_formed iso_form convert v.
  unfold validate. rewrite T.
  rewrite (plain_text_is_not_converted iso_form convert p [] v (fun r I => match I with end) n Ru).
  cbv zeta. rewrite O, C, collect_accepts.
  assert (Z : existsb (fun a => value_eqb a (Str v)) (null_valids (nullable p)) = false)
    by (destruct (nullable p) as [[|]|]; reflexivity).
  rewrite Z. cbn [orb].
  pose proof (collect_nonempty vs (null_valids (nullable p)) N) as NE.
  destruct (collect vs (null_valids (nullable p))) as [|c cs]; [now elim NE|].
  exists (existsb (fun a => value_eqb a (Str v)) vs). split.
  - now destruct (existsb _ vs).
  - apply accepts_member.
Qed.

Lemma enum_accepts_its_values_witness :
  exists n,
    Types.StringEnum
      (Some (set_minLength (Some (Finite 4))
               (set_values (Some [Str "asc"; Str "desc"]) no_params))) = OK n /\
    validate any_form iso_form_2020 true n "asc" = Some true /\
    validate any_form iso_form_2020 true n "desc" = Some true /\
    validate any_form iso_form_2020 true n "ascending" = Some false.
Proof.
  destruct (enum_accepts_its_values
              (set_minLength (Some (Finite 4))
                 (set_values (Some [Str "asc"; Str "desc"]) no_params))
              [Str "asc"; Str "desc"] eq_refl)
    as (n & H & A); [discriminate | vm_compute; reflexivity |].
  exists n. split; [exact H|].
  split; [|split].
  - destruct (A any_form iso_form_2020 true "asc") as (b & -> & B).
    f_equal. apply B. now left.
  - destruct (A any_form iso_form_2020 true "desc") as (b & -> & B).
    f_equal. apply B. right. now left.
  - destruct (A any_form iso_form_2020 true "ascending") as (b & -> & B).
    f_equal. destruct b; [|reflexivity].
    destruct (proj1 B eq_refl) as [E | [E | []]]; discriminate E.
Defined.

Lemma forced_bounds_validate well_formed iso_form convert p name r len v :
  rule_name r <> "isoDate" ->
  rule_name r <> "min" ->
  rule_name r <> "max" ->
  (0 < len)%Z ->
  validate well_formed iso_form convert
    (tagged name
       (with_rules [r; Rmin (Finite (inject_Z len)); Rmax (Finite (inject_Z len))]
          (text_node KString p))) v =
    Some (well_formed r v && (Z.of_nat (String.length v) =? len)%Z).
Proof.
  intros I Mn Mx L. unfold validate.
  set (n := tagged name _).
  assert (C : coerced iso_form convert n v = v).
  { unfold coerced, has_rule. cbn [n tagged with_metas with_rules _rules existsb].
    apply String.eqb_neq in I. rewrite I. cbn [orb]. now rewrite andb_false_r. }
  rewrite C. change (type n) with KString.
  change (_valids n) with (null_valids (nullable p)).
  change (flag_only (_flags n)) with false.
  change (_rules n) with [r; Rmin (Finite (inject_Z len)); Rmax (Finite (inject_Z len))].
  assert (Z : existsb (fun a => value_eqb a (Str v)) (null_valids (nullable p)) = false)
    by (destruct (nullable p) as [[|]|]; reflexivity).
  cbv zeta. rewrite Z.
  assert (ML : min_limits n = [Finite (inject_Z len)]).
  { unfold min_limits. cbn [n tagged with_metas with_rules _rules].
    destruct r; cbn in *; try reflexivity; congruence. }
  rewrite ML. cbn [existsb number_eqb orb forallb].
  assert (K : check well_formed v r = well_formed r v)
    by (destruct r; cbn in *; try reflexivity; congruence).
  rewrite K. cbn [check]. rewrite leb_length_lower, leb_length_upper.
  assert (Q : Qeq_bool 0 (inject_Z len) = false).
  { destruct (Qeq_bool 0 (inject_Z len)) eqn:E; [|reflexivity].
    apply Qeq_bool_iff in E. unfold Qeq in E. cbn in E. lia. }
  rewrite Q, orb_false_r, andb_true_r.
  destruct (well_formed r v); cbn [andb]; [|now rewrite andb_false_r].
  destruct v as [|c v']; cbn [negb String.eqb andb String.length].
  - apply f_equal. symmetry. apply Z.eqb_neq. cbn. lia.
  - apply f_equal. apply eq_true_iff_eq.
    rewrite andb_true_iff, !Z.leb_le, Z.eqb_eq. lia.
Qed.

(** X13: what the nodes with forced bounds accept: for every
    configuration whose lengths the builder accepts, and without a
    configuration, the Uuid factory returns a node that accepts a string
    exactly when it is a well-formed version 4 UUID of 36 characters,
    whatever [minLength] and [maxLength] the caller gave; a string of any
    other length is rejected. *)
Theorem Uuid_accepts_length_36 parameters :
  accepted parameters = true ->
  exists n,
    Types.Uuid parameters = OK n /\
    forall well_formed iso_form convert v,
      validate well_formed iso_form convert n v =
        Some (well_formed (Rguid "uuidv4") v && Nat.eqb (String.length v) 36).
Proof.
  intros A.
  assert (E : forall k, (Z.of_nat k =? 36)%Z = Nat.eqb k 36).
  { intros k. apply eq_true_iff_eq. rewrite Z.eqb_eq, Nat.eqb_eq. lia. }
  destruct parameters as [p|].
  - change (Types.Uuid (Some p)) with (Types.factory Shape.Uuid (Some p)).
    rewrite factory_closed. cbn [closed]. cbn [accepted] in A. rewrite A.
    eexists. split; [reflexivity|]. intros well_formed iso_form convert v.
    rewrite <- E.
    apply (forced_bounds_validate well_formed iso_form convert p "uuid"
             (Rguid "uuidv4") 36 v); [discriminate | discriminate | discriminate | lia].
  - eexists. split; [reflexivity|]. intros well_formed iso_form convert v.
    rewrite <- E.
    apply (forced_bounds_validate well_formed iso_form convert no_params "uuid"
             (Rguid "uuidv4") 36 v); [discriminate | discriminate | discriminate | lia].
Qed.

Lemma Uuid_accepts_length_36_witness :
  exists n,
    Types.Uuid (Some (set_maxLength (Some (Finite 8)) no_params)) = OK n /\
    validate any_form iso_form_2020 true n "12345678" = Some false /\
    validate any_form iso_form_2020 true n
      "123e4567-e89b-42d3-a456-426614174000" = Some true.
Proof.
  destruct (Uuid_accepts_length_36 (Some (set_maxLength (Some (Finite 8)) no_params)))
    as (n & H & V); [vm_compute; reflexivity|].
  exists n. split; [exact H|]. split.
  - now rewrite V.
  - now rewrite V.
Defined.

(** A node that sets conversion itself is checked with its own setting,
    whatever the engine's; a node that is no text node is outside what
    [validate] covers. *)
Lemma validate_own_conversion well_formed iso_form convert b s v :
  prefs_convert s = Some b ->
  validate well_formed iso_form convert s v = validate well_formed iso_form b s v.
Proof.
  intros P. unfold validate, coerced, converts. now rewrite P.
Qed.

Lemma validate_text_only well_formed iso_form convert parameters n v :
  Types.Boolean parameters = OK n ->
  validate well_formed iso_form convert n v = None.
Proof.
  destruct parameters as [p|]; [rewrite Boolean_closed|]; intros [= <-]; reflexivity.
Qed.

(** ** Which error *)

(** X8: a factory ends in a TypeError exactly when it is one of
    StringEnum, NumberEnum, IntegerEnum, Object and Array and is called
    without any configuration: these read a property of [parameters]
    before any test.  Every other failure is a rejection by the builder.
    An enumeration factory whose configuration has no [values] ends in no
    error of its own: it fails only as the factory it is built on fails,
    on a length or a numeric bound the builder rejects. *)
Theorem which_error shape parameters :
  (Types.factory shape parameters = Throw TypeError <->
   type_error shape parameters = true) /\
  (Types.factory shape parameters = Throw AssertError <->
   raises shape parameters = true /\ type_error shape parameters = false).
Proof.
  destruct parameters as [p|].
  - rewrite factory_closed.
    destruct shape; cbn [closed raises type_error length_checked text_based numeric
      enumeration andb orb negb]; unfold guard, enum_closed;
    rewrite ?orb_false_r;
    try (destruct (lengths_ok p); cbn [negb orb andb]);
    try (destruct (numbers_ok p); cbn [negb orb andb]);
    try (destruct (values_ok (given (values p))));
    try (destruct (arrayType p); [destruct (lengths_ok p)|]);
    cbn; intuition congruence.
  - rewrite factory_no_parameters. cbn [raises type_error].
    destruct shape; cbn; unfold guard; cbn; intuition congruence.
Qed.

Lemma which_error_example :
  Types.StringEnum None = Throw TypeError /\
  Types.StringEnum (Some no_params) = OK (base KString) /\
  Types.StringEnum (Some (set_minLength (Some (Finite (-1))) no_params)) =
    Throw AssertError /\
  Types.Array (Some no_params) = Throw AssertError.
Proof.
  repeat split.
Qed.

(** ** Objects and arrays *)

(** X9: the Object factory keeps the property map it is given as the keys
    of the node, same names, same nodes, same order, and adds no rule; the
    Array factory keeps the element node as the one item of the node, with
    the items rule first.  So any node, whichever factory built it, sits
    unchanged inside the array built from it. *)
Theorem composites_hold_children :
  (forall p n, Types.Object (Some p) = OK n ->
     type n = KObject /\ terms_keys n = properties p /\ _rules n = [] /\
     terms_items n = []) /\
  (forall p n, Types.Array (Some p) = OK n ->
     exists t, arrayType p = Some t /\ type n = KArray /\ terms_items n = [t] /\
               hd_error (_rules n) = Some Ritems /\ terms_keys n = None) /\
  (forall child,
     exists n, Types.Array (Some (element child)) = OK n /\
               terms_items n = [child] /\ _rules n = [Ritems]).
Proof.
  split; [|split].
  - intros p n H. rewrite Object_closed in H. injection H as <-. repeat split.
  - intros p n H. rewrite Array_closed in H.
    destruct (arrayType p) as [t|]; [|discriminate H].
    destruct (lengths_ok p); [|discriminate H]. injection H as <-.
    exists t. repeat split.
  - intros child. rewrite Array_closed. cbn.
    eexists. repeat split.
Qed.

(** ** One rule of each name *)

Ltac distinct_names :=
  repeat match goal with
         | |- context [match ?c with Some _ => _ | None => _ end] => destruct c
         end;
  cbn;
  repeat (constructor; [cbn; intuition discriminate|]);
  constructor.

(** X10: a node a factory returns has at most one rule of each name: one
    lower bound at most, one upper bound at most, one format rule at
    most, whatever the configuration and however many calls the factory
    chains. *)
Theorem one_rule_per_name shape parameters n :
  Types.factory shape parameters = OK n ->
  NoDup (map rule_name (_rules n)).
Proof.
  intros H.
  assert (S : exists p, Types.factory shape (Some p) = OK n).
  { destruct parameters as [p|]; [now exists p|].
    exists no_params. now apply no_parameters_as_empty. }
  clear H. destruct S as [p H]. rewrite factory_closed in H.
  destruct shape; unfold closed, guard, enum_closed in H; crack H;
    unfold enum_node, tagged, text_node, date_node, number_node, boolean_node,
      object_node, array_node, opt_list; cbn;
    distinct_names.
Qed.

Lemma one_rule_per_name_witness :
  let p := set_minLength (Some (Finite 1)) (set_maxLength (Some (Finite 9)) no_params) in
  exists n,
    Types.factory Shape.Ipv4 (Some p) = OK n /\
    map rule_name (_rules n) = ["ip"; "min"; "max"] /\
    NoDup (map rule_name (_rules n)).
Proof.
  intros p.
  assert (H : Types.factory Shape.Ipv4 (Some p) =
              OK (tagged "ipv4"
                    (with_rules [Rip ["ipv4"]; Rmin (Finite 7); Rmax (Finite 15)]
                       (text_node KString p)))) by (vm_compute; reflexivity).
  eexists. split; [exact H|]. split; [reflexivity|].
  exact (one_rule_per_name Shape.Ipv4 (Some p) _ H).
Defined.
